(** * openclaw-calendar: occurrence expansion, legend and job synchronisation

    A shallow embedding of [scripts/generate.py] and [scripts/sync_jobs.py].

    Time is counted in whole minutes: the week anchors built by
    [get_week_range] have zero seconds and a cron schedule fires on whole
    minutes.  A wall clock reading is the number of minutes since
    0001-01-01 00:00 (the day of ordinal 1, a Monday), so that [toordinal]
    and [weekday] are the ones of Python's [datetime].

    The two libraries the scripts call, [zoneinfo] and [croniter], are not
    part of the repository: the time zone database is a finite map from
    keys to zones, and the cron iterator is an interface ([Croniter]). *)

From Stdlib Require Import ZArith Lia List Bool Ascii String Sorted.
From stdpp Require Import base option list strings pretty gmap.

Open Scope Z_scope.

(** ** Exceptions *)

Inductive exn : Type :=
| ZoneInfoNotFoundError
| IndexError
| CroniterBadCronError
| CroniterBadDateError
| JSONDecodeError
| AttributeError
| TypeError
| KeyError
| OSError
| CalledProcessError
| SystemExit (code : Z).

(** [except Exception] catches every exception of the model but
    [SystemExit], which derives from [BaseException] only. *)
Definition is_Exception (e : exn) : bool :=
  match e with
  | SystemExit _ => false
  | _ => true
  end.

Inductive result (A : Type) : Type :=
| Return (a : A)
| Raise (e : exn).

Arguments Return {A} a.
Arguments Raise {A} e.

Definition bind {A B : Type} (r : result A) (k : A -> result B) : result B :=
  match r with
  | Return a => k a
  | Raise e => Raise e
  end.

Notation "'do' x <- r ; k" := (bind r (fun x => k))
  (at level 10, x name, r at level 100, k at level 200).

(** ** Time zones and aware datetimes *)

(** The two methods of a [tzinfo] the scripts rely on, in minutes:
    [utcoffset] of a local wall clock reading and [fromutc] of a UTC one. *)
Record tzinfo : Type := mk_tzinfo {
  tz_key : string;
  utcoffset : Z -> Z;
  fromutc : Z -> Z
}.

Record datetime : Type := mk_datetime {
  wall : Z;
  dt_tzinfo : tzinfo
}.

Definition fixed_zone (key : string) (offset : Z) : tzinfo :=
  {| tz_key := key;
     utcoffset := fun _ => offset;
     fromutc := fun u => u + offset |}.

(** [ZoneInfo(key)] hands out one object per key, so that [is] on zones
    is equality of keys. *)
Definition same_zone (a b : tzinfo) : bool := String.eqb (tz_key a) (tz_key b).

Definition ZoneInfo (db : gmap string tzinfo) (key : string) : result tzinfo :=
  match db !! key with
  | Some z => Return z
  | None => Raise ZoneInfoNotFoundError
  end.

(** Asia/Taipei keeps UTC+8 all year. *)
Definition DISPLAY_TZ : tzinfo := fixed_zone "Asia/Taipei" 480.

Definition MINUTES_PER_DAY : Z := 1440.

(** [timedelta(days=d, hours=h)] *)
Definition timedelta (days hours : Z) : Z := days * MINUTES_PER_DAY + hours * 60.

(** [d + delta] and [d - delta] move the wall clock and keep the zone. *)
Definition dt_add (d : datetime) (delta : Z) : datetime :=
  {| wall := wall d + delta; dt_tzinfo := dt_tzinfo d |}.

Definition dt_sub (d : datetime) (delta : Z) : datetime :=
  {| wall := wall d - delta; dt_tzinfo := dt_tzinfo d |}.

Definition utc_of (d : datetime) : Z := wall d - utcoffset (dt_tzinfo d) (wall d).

(** [d.astimezone(z)]: the same object when [z is d.tzinfo], else through
    UTC. *)
Definition astimezone (d : datetime) (z : tzinfo) : datetime :=
  if same_zone z (dt_tzinfo d) then d
  else {| wall := fromutc z (utc_of d); dt_tzinfo := z |}.

(** [d.replace(tzinfo=z)] *)
Definition replace_tzinfo (d : datetime) (z : tzinfo) : datetime :=
  {| wall := wall d; dt_tzinfo := z |}.

(** [d.replace(hour=0, minute=0, second=0, microsecond=0)] *)
Definition replace_midnight (d : datetime) : datetime :=
  {| wall := wall d - wall d mod MINUTES_PER_DAY; dt_tzinfo := dt_tzinfo d |}.

(** [a > b] on aware datetimes: wall clocks when both carry the same zone
    object, UTC instants otherwise. *)
Definition datetime_gt (a b : datetime) : bool :=
  if same_zone (dt_tzinfo a) (dt_tzinfo b) then wall b <? wall a
  else utc_of b <? utc_of a.

Definition toordinal (d : datetime) : Z := wall d / MINUTES_PER_DAY + 1.
Definition weekday (d : datetime) : Z := (toordinal d + 6) mod 7.
Definition hour (d : datetime) : Z := (wall d mod MINUTES_PER_DAY) / 60.
Definition minute (d : datetime) : Z := wall d mod 60.

(** ** Jobs *)

(** A record of the job store.  [tz] is read with [job.get("tz", "UTC")],
    so it may be absent; the other keys are read with [job[...]] and
    [normalize] writes all of them. *)
Record job : Type := mk_job {
  name : string;
  description : string;
  cron : string;
  tz : option string;
  color : string;
  tag : string
}.

(** (day_index, hour, minute) *)
Definition occurrence : Type := Z * Z * Z.

(** ** The cron iterator *)

Class Croniter : Type := {
  cron_iter : Type;
  (** [croniter(expr, start)] *)
  croniter : string -> datetime -> result cron_iter;
  (** [it.get_next(datetime)]: the next firing time and the advanced
      iterator *)
  get_next : cron_iter -> result (datetime * cron_iter)
}.

(** ** generate.py *)

(** [get_week_range()], with the reading of the clock,
    [datetime.now(DISPLAY_TZ)], as argument. *)
Definition get_week_range (now : datetime) : list datetime :=
  let monday := dt_sub now (timedelta (weekday now) 0) in
  let monday := replace_midnight monday in
  map (fun i => dt_add monday (timedelta i 0)) (seqZ 0 7).

(** [week_days[0]] and [week_days[-1]] *)
Definition first_anchor (week_days : list datetime) : result datetime :=
  match head week_days with
  | Some d => Return d
  | None => Raise IndexError
  end.

Definition last_anchor (week_days : list datetime) : result datetime :=
  match last week_days with
  | Some d => Return d
  | None => Raise IndexError
  end.

(** The triple appended for a firing time [next_run] that already carries
    the job's zone. *)
Definition to_occurrence (next_run : datetime) : occurrence :=
  let next_display := astimezone next_run DISPLAY_TZ in
  (weekday next_display, hour next_display, minute next_display).

Section Expander.
Context `{C : Croniter}.
Variable db : gmap string tzinfo.

(** Lines 30-31: the two bounds of the search, in the job's zone. *)
Definition search_window (job_tz : tzinfo) (week_days : list datetime)
  : result (datetime * datetime) :=
  do d0 <- first_anchor week_days;
  let week_start := dt_sub (astimezone d0 job_tz) (timedelta 0 1) in
  do d6 <- last_anchor week_days;
  let week_end := dt_add (astimezone d6 job_tz) (timedelta 0 25) in
  Return (week_start, week_end).

(** The [while True] loop, lines 35-43; [None] when the fuel runs out.
    An [Exception] raised by [get_next] leaves the loop through
    [except Exception: pass] with the results appended so far. *)
Fixpoint expand_loop (fuel : nat) (job_tz : tzinfo) (week_end : datetime)
    (it : cron_iter) (results : list occurrence)
  : option (result (list occurrence)) :=
  match fuel with
  | O => None
  | S fuel' =>
      match get_next it with
      | Raise e => Some (if is_Exception e then Return results else Raise e)
      | Return (d, it') =>
          let next_run := replace_tzinfo d job_tz in
          if datetime_gt next_run week_end then Some (Return results)
          else
            let next_display := astimezone next_run DISPLAY_TZ in
            let day_idx := weekday next_display in
            if (0 <=? day_idx) && (day_idx <=? 6) then
              expand_loop fuel' job_tz week_end it'
                (results ++ [(day_idx, hour next_display, minute next_display)])
            else expand_loop fuel' job_tz week_end it' results
      end
  end.

Definition tz_or_default (j : job) : string :=
  match tz j with
  | Some k => k
  | None => "UTC"
  end.

Definition get_occurrences (fuel : nat) (j : job) (week_days : list datetime)
  : option (result (list occurrence)) :=
  let cron_expr := cron j in
  match ZoneInfo db (tz_or_default j) with
  | Raise e => Some (Raise e)
  | Return job_tz =>
      match search_window job_tz week_days with
      | Raise e => Some (Raise e)
      | Return (week_start, week_end) =>
          match croniter cron_expr week_start with
          | Raise e => Some (if is_Exception e then Return [] else Raise e)
          | Return it => expand_loop fuel job_tz week_end it []
          end
      end
  end.

(** The firing times, in the job's zone, behind the triples that
    [expand_loop] appends: the same loop, keeping [next_run]. *)
Fixpoint emitted_runs (fuel : nat) (job_tz : tzinfo) (week_end : datetime)
    (it : cron_iter) (runs : list datetime)
  : option (result (list datetime)) :=
  match fuel with
  | O => None
  | S fuel' =>
      match get_next it with
      | Raise e => Some (if is_Exception e then Return runs else Raise e)
      | Return (d, it') =>
          let next_run := replace_tzinfo d job_tz in
          if datetime_gt next_run week_end then Some (Return runs)
          else
            let day_idx := weekday (astimezone next_run DISPLAY_TZ) in
            if (0 <=? day_idx) && (day_idx <=? 6) then
              emitted_runs fuel' job_tz week_end it' (runs ++ [next_run])
            else emitted_runs fuel' job_tz week_end it' runs
      end
  end.
End Expander.

(** ** Two instances of the cron iterator *)

(** *** Schedules of the form [m h * * *]

    The fragment of cron syntax the properties below are stated for: five
    fields, minute and hour either [*] or a number, the three date fields
    [*].  Every other expression is rejected by this instance.  In a zone
    of fixed offset the next firing time is the least wall clock reading
    after the current one that matches both fields. *)

Inductive cron_field : Type :=
| Any
| At (n : Z).

Definition is_space (c : ascii) : bool :=
  let n := nat_of_ascii c in
  (n =? 32)%nat || (n =? 9)%nat || (n =? 10)%nat || (n =? 13)%nat.

(** [expr.split()] *)
Fixpoint split_fields (s tok : string) : list string :=
  match s with
  | EmptyString => if String.eqb tok "" then [] else [tok]
  | String c s' =>
      if is_space c then
        if String.eqb tok "" then split_fields s' ""
        else tok :: split_fields s' ""
      else split_fields s' (tok +:+ String c EmptyString)
  end.

Definition digit_of (c : ascii) : option Z :=
  let n := Z.of_nat (nat_of_ascii c) in
  if (48 <=? n) && (n <=? 57) then Some (n - 48) else None.

Fixpoint parse_digits (s : string) (acc : Z) : option Z :=
  match s with
  | EmptyString => Some acc
  | String c s' =>
      match digit_of c with
      | Some d => parse_digits s' (10 * acc + d)
      | None => None
      end
  end.

Definition parse_field (lo hi : Z) (s : string) : option cron_field :=
  if String.eqb s "*" then Some Any
  else if String.eqb s "" then None
  else
    match parse_digits s 0 with
    | Some n => if (lo <=? n) && (n <=? hi) then Some (At n) else None
    | None => None
    end.

Definition parse_daily (expr : string) : option (cron_field * cron_field) :=
  match split_fields expr "" with
  | [m; h; dom; mon; dow] =>
      if String.eqb dom "*" && String.eqb mon "*" && String.eqb dow "*" then
        match parse_field 0 59 m, parse_field 0 23 h with
        | Some fm, Some fh => Some (fm, fh)
        | _, _ => None
        end
      else None
  | _ => None
  end.

(** The least reading after [cur] whose minute and hour match. *)
Definition next_fire (fm fh : cron_field) (cur : Z) : Z :=
  let t := cur + 1 in
  match fm, fh with
  | Any, Any => t
  | At m, Any => t + (m - t) mod 60
  | At m, At h => t + (60 * h + m - t) mod MINUTES_PER_DAY
  | Any, At h =>
      if (t mod MINUTES_PER_DAY) / 60 =? h then t
      else t + (60 * h - t) mod MINUTES_PER_DAY
  end.

Record daily_iter : Type := mk_daily_iter {
  di_cur : Z;
  di_zone : tzinfo;
  di_minute : cron_field;
  di_hour : cron_field
}.

Definition daily_new (expr : string) (start : datetime) : result daily_iter :=
  match parse_daily expr with
  | Some (fm, fh) =>
      Return {| di_cur := wall start; di_zone := dt_tzinfo start;
                di_minute := fm; di_hour := fh |}
  | None => Raise CroniterBadCronError
  end.

Definition daily_next (it : daily_iter) : result (datetime * daily_iter) :=
  let t := next_fire (di_minute it) (di_hour it) (di_cur it) in
  Return ({| wall := t; dt_tzinfo := di_zone it |},
          {| di_cur := t; di_zone := di_zone it;
             di_minute := di_minute it; di_hour := di_hour it |}).

Definition daily_croniter : Croniter :=
  {| cron_iter := daily_iter; croniter := daily_new; get_next := daily_next |}.

(** *** An iterator that replays a script

    Each call of [get_next] hands out the next entry of the script, a
    wall clock reading or an exception; after the last entry it raises
    [CroniterBadDateError]. *)

Definition scripted_next (st : list (result Z) * tzinfo)
  : result (datetime * (list (result Z) * tzinfo)) :=
  match fst st with
  | [] => Raise CroniterBadDateError
  | Return w :: rest => Return ({| wall := w; dt_tzinfo := snd st |}, (rest, snd st))
  | Raise e :: _ => Raise e
  end.

Definition scripted_croniter (script : list (result Z)) : Croniter :=
  {| cron_iter := list (result Z) * tzinfo;
     croniter := fun _ start => Return (script, dt_tzinfo start);
     get_next := scripted_next |}.

(** ** The grid and the legend of [generate_html] *)

(** [grid[day][hour]] is the list of jobs of that cell. *)
Definition grid : Type := list (list (list job)).

Definition empty_grid : grid := replicate 7 (replicate 24 []).

(** A list subscript: negative indices count from the end, anything out
    of range raises [IndexError]. *)
Definition py_index (len : nat) (i : Z) : result nat :=
  if (0 <=? i) && (i <? Z.of_nat len) then Return (Z.to_nat i)
  else if (- Z.of_nat len <=? i) && (i <? 0) then Return (Z.to_nat (Z.of_nat len + i))
  else Raise IndexError.

(** [grid[day_idx][hour].append(job)] *)
Definition grid_append (g : grid) (day_idx hr : Z) (j : job) : result grid :=
  do d <- py_index (length g) day_idx;
  match g !! d with
  | None => Raise IndexError
  | Some row =>
      do h <- py_index (length row) hr;
      Return (alter (alter (fun cell => cell ++ [j]) h) d g)
  end.

Fixpoint place_occurrences (g : grid) (j : job) (occs : list occurrence)
  : result grid :=
  match occs with
  | [] => Return g
  | (day_idx, hr, _) :: rest =>
      do g' <- grid_append g day_idx hr j;
      place_occurrences g' j rest
  end.

Section Renderer.
Context `{C : Croniter}.
Variable db : gmap string tzinfo.

(** Lines 54-57: an exception of [get_occurrences] leaves the loop over
    the jobs, and [generate_html] with it. *)
Fixpoint build_grid (fuel : nat) (jobs : list job) (week_days : list datetime)
    (g : grid) : option (result grid) :=
  match jobs with
  | [] => Some (Return g)
  | j :: rest =>
      match get_occurrences db fuel j week_days with
      | None => None
      | Some (Raise e) => Some (Raise e)
      | Some (Return occs) =>
          match place_occurrences g j occs with
          | Raise e => Some (Raise e)
          | Return g' => build_grid fuel rest week_days g'
          end
      end
  end.
End Renderer.

(** [d[k] = v] on a dict, which keeps the order of first insertion. *)
Fixpoint dict_set (d : list (string * string)) (k v : string)
  : list (string * string) :=
  match d with
  | [] => [(k, v)]
  | (k', v') :: d' =>
      if String.eqb k' k then (k', v) :: d'
      else (k', v') :: dict_set d' k v
  end.

Fixpoint dict_get (d : list (string * string)) (k : string) : option string :=
  match d with
  | [] => None
  | (k', v') :: d' => if String.eqb k' k then Some v' else dict_get d' k
  end.

(** Lines 60-62 *)
Definition tag_colors (jobs : list job) : list (string * string) :=
  fold_left (fun d j => dict_set d (tag j) (color j)) jobs [].

Definition dq : string := String (ascii_of_nat 34) EmptyString.

(** Lines 86-89 *)
Definition legend_item (entry : string * string) : string :=
  let (tag, color) := entry in
  "<span class=" +:+ dq +:+ "legend-item" +:+ dq +:+ "><span class=" +:+ dq
  +:+ "legend-dot" +:+ dq +:+ " style=" +:+ dq +:+ "background:" +:+ color +:+ dq
  +:+ "></span>" +:+ tag +:+ "</span>".

Definition legend (jobs : list job) : string :=
  String.concat "" (map legend_item (tag_colors jobs)).

(** The colour of the last job of the list that carries the tag. *)
Fixpoint last_color (jobs : list job) (t : string) : option string :=
  match jobs with
  | [] => None
  | j :: rest =>
      match last_color rest t with
      | Some c => Some c
      | None => if String.eqb (tag j) t then Some (color j) else None
      end
  end.

(** ** sync_jobs.py *)

#[warnings="-register-all"]
Inductive json : Type :=
| JNull
| JBool (b : bool)
| JNum (n : Z)
| JStr (s : string)
| JArr (items : list json)
| JObj (members : list (string * json)).

(** What [subprocess.run(..., capture_output=True, text=True)] returns. *)
Record CompletedProcess : Type := mk_completed {
  returncode : Z;
  stdout : string;
  stderr : string
}.

(** What the synchroniser reads and writes: the job store
    [schedules/jobs.json] ([None] while the file does not exist) and the
    two output streams. *)
Record world : Type := mk_world {
  jobs_file : option string;
  out_stream : list string;
  err_stream : list string
}.

Definition print (line : string) (w : world) : world :=
  {| jobs_file := jobs_file w;
     out_stream := out_stream w ++ [line];
     err_stream := err_stream w |}.

Definition print_err (line : string) (w : world) : world :=
  {| jobs_file := jobs_file w;
     out_stream := out_stream w;
     err_stream := err_stream w ++ [line] |}.

(** [with open(JOBS_PATH, "w") as f: json.dump(..., f)] *)
Definition write_jobs_file (text : string) (w : world) : world :=
  {| jobs_file := Some text;
     out_stream := out_stream w;
     err_stream := err_stream w |}.

Fixpoint members_get (members : list (string * json)) (k : string) : option json :=
  match members with
  | [] => None
  | (k', v) :: rest => if String.eqb k' k then Some v else members_get rest k
  end.

(** [data.get(k, default)]: only a dict has [get]. *)
Definition py_get (data : json) (k : string) (default : json) : result json :=
  match data with
  | JObj members =>
      match members_get members k with
      | Some v => Return v
      | None => Return default
      end
  | _ => Raise AttributeError
  end.

(** [len(v)] *)
Definition py_len (v : json) : result Z :=
  match v with
  | JArr items => Return (Z.of_nat (length items))
  | JObj members => Return (Z.of_nat (length members))
  | JStr s => Return (Z.of_nat (String.length s))
  | _ => Raise TypeError
  end.

(** How the interpreter ends a script whose [main()] came back with [r]:
    status 0 after a normal return, the code of a [SystemExit], 1 after
    any other uncaught exception. *)
Definition exit_status (r : result unit) : Z :=
  match r with
  | Return _ => 0
  | Raise (SystemExit code) => code
  | Raise _ => 1
  end.

Section Synchronizer.
(** [REPO_DIR], the directory above the one of the script *)
Variable REPO_DIR : string.
(** [json.loads], [None] for a text that is not JSON, and [json.dumps]
    with the formatting options of line 89 *)
Variable json_loads : string -> option json.
Variable json_dumps : json -> string.
(** The outcome of [openclaw cron list --json], a query of the scheduler *)
Variable openclaw_cron_list : result CompletedProcess.
(** [normalize(jobs)]: it reads the job store and writes nothing. *)
Variable normalize : json -> option string -> result json.
(** [subprocess.run(cmd)] of the commands that follow the write of the
    store: the generator and git *)
Variable subprocess_run : list string -> world -> result CompletedProcess * world.

Definition JOBS_PATH : string := REPO_DIR +:+ "/schedules/jobs.json".

(** [subprocess.run(cmd, check=True)] *)
Definition run_checked (cmd : list string) (w : world) : result unit * world :=
  match subprocess_run cmd w with
  | (Raise e, w) => (Raise e, w)
  | (Return proc, w) =>
      if returncode proc =? 0 then (Return tt, w)
      else (Raise CalledProcessError, w)
  end.

(** Lines 28-37 *)
Definition get_openclaw_jobs (w : world) : result json * world :=
  match openclaw_cron_list with
  | Raise e => (Raise e, w)
  | Return proc =>
      if negb (returncode proc =? 0) then
        (Raise (SystemExit 1), print_err ("Error: " +:+ stderr proc) w)
      else
        match json_loads (stdout proc) with
        | None => (Raise JSONDecodeError, w)
        | Some data => (py_get data "jobs" (JArr []), w)
        end
  end.

(** Lines 96-109: git add, and commit and push when something is staged *)
Definition publish (w : world) : result unit * world :=
  match run_checked ["git"; "-C"; REPO_DIR; "add"; "-A"] w with
  | (Raise e, w) => (Raise e, w)
  | (Return _, w) =>
      match subprocess_run ["git"; "-C"; REPO_DIR; "diff"; "--cached"; "--quiet"] w with
      | (Raise e, w) => (Raise e, w)
      | (Return staged, w) =>
          if negb (returncode staged =? 0) then
            match run_checked ["git"; "-C"; REPO_DIR; "commit"; "-m";
                               "chore: sync openclaw cron jobs"] w with
            | (Raise e, w) => (Raise e, w)
            | (Return _, w) =>
                match run_checked ["git"; "-C"; REPO_DIR; "push"] w with
                | (Raise e, w) => (Raise e, w)
                | (Return _, w) => (Return tt, print "✅ Pushed to GitHub!" w)
                end
            end
          else (Return tt, print "ℹ️  No changes to commit." w)
      end
  end.

(** Lines 81-109 *)
Definition main (w : world) : result unit * world :=
  let w := print "🔄 Fetching OpenClaw cron jobs..." w in
  match get_openclaw_jobs w with
  | (Raise e, w) => (Raise e, w)
  | (Return jobs, w) =>
      match py_len jobs with
      | Raise e => (Raise e, w)
      | Return n =>
          let w := print ("   Found " +:+ pretty n +:+ " jobs") w in
          match normalize jobs (jobs_file w) with
          | Raise e => (Raise e, w)
          | Return normalized =>
              let w := write_jobs_file (json_dumps normalized) w in
              let w := print ("✅ Updated: " +:+ JOBS_PATH) w in
              let generate_script := REPO_DIR +:+ "/scripts/generate.py" in
              match run_checked ["python3"; generate_script] w with
              | (Raise e, w) => (Raise e, w)
              | (Return _, w) => publish w
              end
          end
      end
  end.

(** [if __name__ == "__main__": main()] *)
Definition sync_entry (w : world) : Z * world :=
  let (r, w') := main w in (exit_status r, w').
End Synchronizer.

(** ** Sample data for the closed examples *)

Definition sample_db : gmap string tzinfo :=
  <["UTC" := fixed_zone "UTC" 0]>
  (<["Asia/Taipei" := DISPLAY_TZ]>
  (<["Asia/Tokyo" := fixed_zone "Asia/Tokyo" 540]> ∅)).

(** Monday 2024-01-01 is the day of ordinal 738886. *)
Definition sample_now : datetime :=
  {| wall := (738886 - 1 + 2) * MINUTES_PER_DAY + 10 * 60 + 15; dt_tzinfo := DISPLAY_TZ |}.

Definition sample_week : list datetime := get_week_range sample_now.

Definition sample_job (expr : string) (zone : option string) : job :=
  {| name := "job"; description := ""; cron := expr; tz := zone;
     color := "#4A90D9"; tag := "openclaw" |}.

Definition nine_ahead_db : gmap string tzinfo :=
  <["Test/Nine-Ahead" := fixed_zone "Test/Nine-Ahead" (480 + 540)]> sample_db.

(** Two firing times inside the window of [sample_week], then an error. *)
Definition sample_script : list (result Z) :=
  [Return 1063994000; Return 1063995000; Raise CroniterBadDateError].

(** ** Vocabulary of the properties *)

Definition result_map {A B : Type} (f : A -> B) (r : result A) : result B :=
  match r with
  | Return a => Return (f a)
  | Raise e => Raise e
  end.

Section Contracts.
Context `{C : Croniter}.
Variable db : gmap string tzinfo.

(** [get_occurrences], returning the firing times in place of the
    triples. *)
Definition occurrence_runs (fuel : nat) (j : job) (week_days : list datetime)
  : option (result (list datetime)) :=
  match ZoneInfo db (tz_or_default j) with
  | Raise e => Some (Raise e)
  | Return job_tz =>
      match search_window job_tz week_days with
      | Raise e => Some (Raise e)
      | Return (week_start, week_end) =>
          match croniter (cron j) week_start with
          | Raise e => Some (if is_Exception e then Return [] else Raise e)
          | Return it => emitted_runs fuel job_tz week_end it []
          end
      end
  end.

(** An iterator starts at the reading it is seeded with, and every
    firing time it hands out lies after the previous one: [cur] is the
    reading the iterator stands at. *)
Definition advances (cur : cron_iter -> Z) : Prop :=
  (forall expr start it, croniter expr start = Return it -> cur it = wall start)
  /\ (forall it d it',
         get_next it = Return (d, it') -> cur it < wall d /\ cur it' = wall d).

(** On the expression [expr] the iterator is built without error and
    hands out, reading after reading, [fire] of the reading it stands
    at; [good] marks the iterators built from [expr]. *)
Definition follows (expr : string) (fire : Z -> Z)
    (cur : cron_iter -> Z) (good : cron_iter -> Prop) : Prop :=
  (forall start, exists it,
      croniter expr start = Return it /\ good it /\ cur it = wall start)
  /\ (forall it, good it -> exists d it',
         get_next it = Return (d, it') /\ wall d = fire (cur it)
         /\ good it' /\ cur it' = wall d).

(** [yields job_tz week_end it ds it']: from [it], successive calls of
    [get_next] hand out [ds], none of them past [week_end], and leave
    the iterator at [it']. *)
Inductive yields (job_tz : tzinfo) (week_end : datetime)
  : cron_iter -> list datetime -> cron_iter -> Prop :=
| yields_nil (it : cron_iter) : yields job_tz week_end it [] it
| yields_cons (it it' it'' : cron_iter) (d : datetime) (ds : list datetime) :
    get_next it = Return (d, it') ->
    datetime_gt (replace_tzinfo d job_tz) week_end = false ->
    yields job_tz week_end it' ds it'' ->
    yields job_tz week_end it (d :: ds) it''.
End Contracts.

(** The readings [fire c], [fire (fire c)], ... up to the first one past
    [bound]: what the loop sees of an iterator that follows [fire];
    [None] when the fuel runs out first. *)
Fixpoint fire_seq (fuel : nat) (fire : Z -> Z) (c bound : Z) : option (list Z) :=
  match fuel with
  | O => None
  | S fuel' =>
      let t := fire c in
      if bound <? t then Some []
      else option_map (cons t) (fire_seq fuel' fire t bound)
  end.

(** The number of firing times of a schedule that fires once a day at
    minute [x] of the day, inside a search window that runs from Sunday
    23:00 (not included) to the Monday after the week, 01:00 (included). *)
Definition daily_count (x : Z) : Z :=
  7 + (if x <=? 60 then 1 else 0) + (if 1380 <? x then 1 else 0).

(** The clock reading [datetime.now(DISPLAY_TZ)] at wall clock [w]. *)
Definition now_at (w : Z) : datetime := {| wall := w; dt_tzinfo := DISPLAY_TZ |}.

(** The firing time [r], seen in the display zone, lies in the week that
    starts at the first anchor: from Monday 00:00 up to, and not
    including, the following Monday 00:00. *)
Definition in_display_week (week_days : list datetime) (r : datetime) : Prop :=
  match head week_days with
  | Some d0 =>
      wall d0 <= wall (astimezone r DISPLAY_TZ) < wall d0 + timedelta 7 0
  | None => False
  end.

(** Zones whose local time is between 12 hours behind and 14 hours ahead
    of UTC, as the civil zones of the time zone database are. *)
Definition civil_zone (z : tzinfo) : Prop :=
  forall u, - 720 <= fromutc z u - u <= 840.

(** The search window with its upper bound taken from the start of day 8,
    the Monday after the week. *)
Definition window_from_day_8 (job_tz : tzinfo) (week_days : list datetime)
  : result (datetime * datetime) :=
  do d0 <- first_anchor week_days;
  Return (dt_sub (astimezone d0 job_tz) (timedelta 0 1),
          dt_add (astimezone (dt_add d0 (timedelta 7 0)) job_tz) (timedelta 0 25)).

(** A firing time that the display zone shows at 14:30 of the day before
    its own day. *)
Definition shown_previous_day (r : datetime) : Prop :=
  let shown := astimezone r DISPLAY_TZ in
  toordinal shown = toordinal r - 1 /\ hour shown = 14 /\ minute shown = 30.

(** A firing time that the display zone shows at 14:30 of its own day. *)
Definition shown_same_day (r : datetime) : Prop :=
  let shown := astimezone r DISPLAY_TZ in
  toordinal shown = toordinal r /\ hour shown = 14 /\ minute shown = 30.

(** ** The day headers of [generate_html] *)

Definition DAYS : list string := ["Mon"; "Tue"; "Wed"; "Thu"; "Fri"; "Sat"; "Sun"].

(** [a.date() == b.date()] *)
Definition same_date (a b : datetime) : bool := toordinal a =? toordinal b.

(** Calls of [f] on the elements of a list, in order, up to the first
    exception. *)
Fixpoint map_result {A B : Type} (f : A -> result B) (l : list A)
  : result (list B) :=
  match l with
  | [] => Return []
  | a :: l' =>
      do b <- f a;
      do bs <- map_result f l';
      Return (b :: bs)
  end.

(** The text of one header, lines 65-66: the class is [day-header]
    followed, without a space, by [today] for the current day. *)
Definition day_header_html (today : bool) (label day_date : string) : string :=
  "<th class=" +:+ dq +:+ "day-header" +:+ (if today then "today" else "")
  +:+ dq +:+ ">" +:+ label +:+ "<br><span class=" +:+ dq +:+ "day-date" +:+ dq
  +:+ ">" +:+ day_date +:+ "</span></th>".

Section Headers.
(** [d.strftime(format)] *)
Variable strftime : string -> datetime -> string.

Definition day_header (week_days : list datetime) (now : datetime) (i : nat)
  : result string :=
  match week_days !! i with
  | None => Raise IndexError
  | Some d =>
      let today := same_date d now in
      match DAYS !! i with
      | None => Raise IndexError
      | Some label => Return (day_header_html today label (strftime "%m/%d" d))
      end
  end.

(** Lines 64-68 *)
Definition day_headers (week_days : list datetime) (now : datetime)
  : result string :=
  do cells <- map_result (day_header week_days now) (seq 0 7);
  Return (String.concat "" cells).
End Headers.

(** ** [normalize] *)

(** What a dict can be indexed with, among the values of JSON: a str, an
    int or [None].  [True] and [False] are the keys 1 and 0. *)
Definition py_key : Type := string + (Z + ()).

(** The key a value stands for; a list or a dict is unhashable. *)
Definition hash_key (v : json) : result py_key :=
  match v with
  | JStr s => Return (inl s)
  | JNum n => Return (inr (inl n))
  | JBool b => Return (inr (inl (if b then 1 else 0)))
  | JNull => Return (inr (inr ()))
  | JArr _ | JObj _ => Raise TypeError
  end.

(** The truth value of [v], as [v or ...] tests it. *)
Definition py_truthy (v : json) : bool :=
  match v with
  | JNull => false
  | JBool b => b
  | JNum n => negb (n =? 0)
  | JStr s => negb (String.eqb s "")
  | JArr items => match items with [] => false | _ => true end
  | JObj members => match members with [] => false | _ => true end
  end.

(** [for x in v]: the items of a list, the keys of a dict, the characters
    of a str. *)
Definition py_iter (v : json) : result (list json) :=
  match v with
  | JArr items => Return items
  | JObj members => Return (map (fun m => JStr (fst m)) members)
  | JStr s => Return (map (fun c => JStr (String c EmptyString)) (list_ascii_of_string s))
  | _ => Raise TypeError
  end.

(** [v[k]] for a str [k] *)
Definition py_getitem (v : json) (k : string) : result json :=
  match v with
  | JObj members =>
      match members_get members k with
      | Some x => Return x
      | None => Raise KeyError
      end
  | _ => Raise TypeError
  end.

Definition NAME_COLORS : list (string * string) :=
  [("daily-review", "#4A90D9"); ("stock-forum-daily", "#27AE60");
   ("weekly-review", "#8E44AD"); ("generate-calendar", "#E67E22")].

(** [NAME_COLORS.get(nm, fallback)] *)
Definition name_color (nm : json) (fallback : string) : result json :=
  match nm with
  | JStr s => Return (JStr (default fallback (dict_get NAME_COLORS s)))
  | JArr _ | JObj _ => Raise TypeError
  | _ => Return (JStr fallback)
  end.

(** Lines 50-57: the job of the calendar's own regeneration *)
Definition synthetic_job : json :=
  JObj [("name", JStr "generate-calendar");
        ("description", JStr "自動產生本週曆頁面並 push 到 GitHub Pages");
        ("cron", JStr "0 0 * * *");
        ("tz", JStr "UTC");
        ("color", JStr (default "#E67E22" (dict_get NAME_COLORS "generate-calendar")));
        ("tag", JStr "github-actions")].

(** Lines 44-45: [existing[j["name"]] = j] for each stored job *)
Fixpoint index_existing (items : list json) (existing : gmap py_key json)
  : result (gmap py_key json) :=
  match items with
  | [] => Return existing
  | j :: rest =>
      do nm <- py_getitem j "name";
      do k <- hash_key nm;
      index_existing rest (<[k := j]> existing)
  end.

(** Lines 61-77: the record written for one fetched job *)
Definition normalize_job (existing : gmap py_key json) (fetched : json)
  : result json :=
  do nm <- py_get fetched "name" (JStr "unknown");
  do schedule <- py_get fetched "schedule" (JObj []);
  do cron_expr <- py_get schedule "expr" (JStr "");
  do tz0 <- py_get schedule "tz" (JStr "UTC");
  let zone := if py_truthy tz0 then tz0 else JStr "UTC" in
  do descr <- py_get fetched "description" (JStr "");
  do k <- hash_key nm;
  let stored := default (JObj []) (existing !! k) in
  do fallback <- name_color nm "#58A6FF";
  do colour <- py_get stored "color" fallback;
  Return (JObj [("name", nm); ("description", descr); ("cron", cron_expr);
                ("tz", zone); ("color", colour); ("tag", JStr "openclaw")]).

Section Normalize.
Variable json_loads : string -> option json.

(** Lines 41-45; [store] is the text of the job store, [None] when
    [os.path.exists(JOBS_PATH)] is false. *)
Definition load_existing (store : option string) : result (gmap py_key json) :=
  match store with
  | None => Return ∅
  | Some text =>
      match json_loads text with
      | None => Raise JSONDecodeError
      | Some stored =>
          do items <- py_iter stored;
          index_existing items ∅
      end
  end.

(** Lines 39-79 *)
Definition normalize (jobs : json) (store : option string) : result json :=
  do existing <- load_existing store;
  do items <- py_iter jobs;
  do entries <- map_result (normalize_job existing) items;
  Return (JArr (synthetic_job :: entries)).
End Normalize.

(** The synchroniser with [normalize] in its place. *)
Definition sync (REPO_DIR : string) (json_loads : string -> option json)
    (json_dumps : json -> string) (openclaw_cron_list : result CompletedProcess)
    (subprocess_run : list string -> world -> result CompletedProcess * world)
    (w : world) : Z * world :=
  sync_entry REPO_DIR json_loads json_dumps openclaw_cron_list
    (normalize json_loads) subprocess_run w.

(** A reply of the scheduler and a job store, for the closed examples. *)
Definition sample_fetched : json :=
  JArr [JObj [("name", JStr "daily-review"); ("description", JStr "review");
              ("schedule", JObj [("expr", JStr "0 9 * * *");
                                 ("tz", JStr "Asia/Taipei")])];
        JObj [("name", JStr "backup");
              ("schedule", JObj [("expr", JStr "30 2 * * *"); ("tz", JNull)])]].

Definition sample_stored : json :=
  JArr [JObj [("name", JStr "backup"); ("color", JStr "#123456")]].

Definition sample_loads (text : string) : option json :=
  if String.eqb text "store" then Some sample_stored else None.

(** The same store, and under ["next"] what a first run writes. *)
Definition sample_loads_next (text : string) : option json :=
  if String.eqb text "next" then
    match normalize sample_loads sample_fetched (Some "store") with
    | Return r => Some r
    | Raise _ => None
    end
  else sample_loads text.

(** ** More vocabulary *)

(** The member [k] of an object; [JNull] stands for a missing member. *)
Definition field (v : json) (k : string) : json :=
  match v with
  | JObj members => default JNull (members_get members k)
  | _ => JNull
  end.

(** The dict key of the ["name"] of a record, when it has one. *)
Definition key_of_name (j : json) : option py_key :=
  match py_getitem j "name" with
  | Return nm =>
      match hash_key nm with
      | Return k => Some k
      | Raise _ => None
      end
  | Raise _ => None
  end.

(** The last record of the list whose name has the key [k]. *)
Fixpoint last_named (records : list json) (k : py_key) : option json :=
  match records with
  | [] => None
  | j :: rest =>
      match last_named rest k with
      | Some x => Some x
      | None => if bool_decide (key_of_name j = Some k) then Some j else None
      end
  end.

(** The keys of a list in the order in which they first occur. *)
Fixpoint first_seen (keys seen : list string) : list string :=
  match keys with
  | [] => []
  | k :: rest =>
      if bool_decide (k ∈ seen) then first_seen rest seen
      else k :: first_seen rest (seen ++ [k])
  end.

(** The cell [grid[d][h]]. *)
Definition grid_cell (g : grid) (d h : nat) : list job :=
  default [] (g !! d ≫= (.!! h)).

(** 7 rows of 24 cells. *)
Definition grid_shape (g : grid) : Prop :=
  length g = 7%nat /\ Forall (fun row : list (list job) => length row = 24%nat) g.

(** One copy of [j] for each occurrence of the list at day [d], hour [h]. *)
Definition cell_entries (j : job) (occs : list occurrence) (d h : nat) : list job :=
  map (fun _ => j)
    (filter (fun o : occurrence =>
               o.1.1 = Z.of_nat d /\ o.1.2 = Z.of_nat h) occs).

(** Day index, hour and minute within their ranges. *)
Definition occurrence_in_range (o : occurrence) : Prop :=
  0 <= o.1.1 <= 6 /\ 0 <= o.1.2 <= 23 /\ 0 <= o.2 <= 59.

(** * Properties *)

(** ** Dates and zones *)

Lemma weekday_range (d : datetime) : 0 <= weekday d <= 6.
Proof.
  unfold weekday.
  pose proof (Z.mod_pos_bound (toordinal d + 6) 7 ltac:(lia)). lia.
Qed.

(** The test of line 42 never fails. *)
Lemma weekday_check (d : datetime) :
  (0 <=? weekday d) && (weekday d <=? 6) = true.
Proof.
  pose proof (weekday_range d) as [Hlo Hhi].
  apply andb_true_intro; split; apply Z.leb_le; assumption.
Qed.

Lemma same_zone_refl (z : tzinfo) : same_zone z z = true.
Proof. unfold same_zone. apply String.eqb_refl. Qed.

Lemma same_zone_sym (a b : tzinfo) : same_zone a b = same_zone b a.
Proof. unfold same_zone. apply String.eqb_sym. Qed.

Lemma astimezone_zone (d : datetime) (z : tzinfo) :
  same_zone z (dt_tzinfo (astimezone d z)) = true.
Proof.
  unfold astimezone. destruct (same_zone z (dt_tzinfo d)) eqn:E; simpl.
  - exact E.
  - apply same_zone_refl.
Qed.

(** The stop test of line 37 compares wall clocks of the job's zone. *)
Lemma stop_test_job_local (job_tz : tzinfo) (week_end d : datetime) :
  same_zone job_tz (dt_tzinfo week_end) = true ->
  datetime_gt (replace_tzinfo d job_tz) week_end = (wall week_end <? wall d).
Proof.
  intros Hz. unfold datetime_gt. simpl. rewrite Hz. reflexivity.
Qed.

Lemma get_week_range_anchors (now : datetime) :
  let monday := replace_midnight (dt_sub now (timedelta (weekday now) 0)) in
  head (get_week_range now) = Some (dt_add monday (timedelta 0 0))
  /\ last (get_week_range now) = Some (dt_add monday (timedelta 6 0)).
Proof. split; reflexivity. Qed.

Lemma search_window_zone (job_tz : tzinfo) (week_days : list datetime)
    (ws we : datetime) :
  search_window job_tz week_days = Return (ws, we) ->
  same_zone job_tz (dt_tzinfo we) = true.
Proof.
  unfold search_window, first_anchor, last_anchor, bind.
  destruct (head week_days); [|discriminate].
  destruct (last week_days); [|discriminate].
  intros [= _ <-]. simpl. apply astimezone_zone.
Qed.

(** ** The loop and its firing times *)

Section Loop.
Context `{C : Croniter}.
Variable db : gmap string tzinfo.

Lemma expand_loop_runs (fuel : nat) (job_tz : tzinfo) (week_end : datetime) :
  forall (it : cron_iter) (runs : list datetime),
    expand_loop fuel job_tz week_end it (map to_occurrence runs)
    = option_map (result_map (map to_occurrence))
        (emitted_runs fuel job_tz week_end it runs).
Proof.
  induction fuel as [|fuel IH]; intros it runs; simpl; [reflexivity|].
  destruct (get_next it) as [[d it']|e].
  - destruct (datetime_gt (replace_tzinfo d job_tz) week_end); [reflexivity|].
    rewrite weekday_check.
    rewrite <- IH. f_equal. rewrite map_app. reflexivity.
  - destruct (is_Exception e); reflexivity.
Qed.

Lemma get_occurrences_runs (fuel : nat) (j : job) (week_days : list datetime) :
  get_occurrences db fuel j week_days
  = option_map (result_map (map to_occurrence))
      (occurrence_runs db fuel j week_days).
Proof.
  unfold get_occurrences, occurrence_runs.
  destruct (ZoneInfo db (tz_or_default j)) as [job_tz|e]; [|reflexivity].
  destruct (search_window job_tz week_days) as [[ws we]|e]; [|reflexivity].
  destruct (croniter (cron j) ws) as [it|e].
  - apply (expand_loop_runs fuel job_tz we it []).
  - destruct (is_Exception e); reflexivity.
Qed.

(** A job whose zone is not in the database: the lookup of line 27 is
    outside the [try], so the exception leaves [get_occurrences]. *)
Lemma get_occurrences_unknown_zone (fuel : nat) (j : job)
    (week_days : list datetime) :
  db !! tz_or_default j = None ->
  get_occurrences db fuel j week_days = Some (Raise ZoneInfoNotFoundError).
Proof.
  intros Hz. unfold get_occurrences, ZoneInfo. rewrite Hz. reflexivity.
Qed.

(** The exception ends the loop over the jobs: the jobs after the bad one
    are not expanded. *)
Lemma build_grid_unknown_zone (fuel : nat) (j : job) (rest : list job)
    (week_days : list datetime) (g : grid) :
  db !! tz_or_default j = None ->
  build_grid db fuel (j :: rest) week_days g = Some (Raise ZoneInfoNotFoundError).
Proof.
  intros Hz. simpl. rewrite (get_occurrences_unknown_zone fuel j week_days Hz).
  reflexivity.
Qed.

(** Successive firing times inside the window followed by an exception:
    the loop returns what was appended before it. *)
Lemma expand_loop_yields (job_tz : tzinfo) (week_end : datetime)
    (it it' : cron_iter) (ds : list datetime) (e : exn) :
  yields job_tz week_end it ds it' ->
  get_next it' = Raise e ->
  is_Exception e = true ->
  forall (fuel : nat) (results : list occurrence),
    (length ds < fuel)%nat ->
    expand_loop fuel job_tz week_end it results
    = Some (Return (results
                    ++ map (fun d => to_occurrence (replace_tzinfo d job_tz)) ds)).
Proof.
  intros Hy Hraise Hexc.
  induction Hy as [it|it it' it'' d ds Hnext Hin Hy IH];
    intros fuel results Hfuel.
  - destruct fuel as [|fuel]; [simpl in Hfuel; lia|].
    simpl. rewrite Hraise, Hexc, app_nil_r. reflexivity.
  - destruct fuel as [|fuel]; [simpl in Hfuel; lia|].
    simpl. rewrite Hnext, Hin, weekday_check.
    rewrite (IH Hraise fuel); [|simpl in Hfuel; lia].
    rewrite <- app_assoc. reflexivity.
Qed.
End Loop.

(** ** Termination *)

Section Termination.
Context `{C : Croniter}.
Variable cur : cron_iter -> Z.
Hypothesis Hadv : advances cur.

(** With more fuel than there are minutes between the iterator and the
    end of the window the loop comes to an end, and it appends at most
    one triple per minute. *)
Lemma expand_loop_terminates (job_tz : tzinfo) (week_end : datetime) :
  same_zone job_tz (dt_tzinfo week_end) = true ->
  forall (fuel : nat) (it : cron_iter) (results : list occurrence),
    Z.max 0 (wall week_end - cur it) < Z.of_nat fuel ->
    exists out,
      expand_loop fuel job_tz week_end it results = Some out
      /\ match out with
         | Return occs =>
             Z.of_nat (length occs)
             <= Z.of_nat (length results) + Z.max 0 (wall week_end - cur it)
         | Raise e => is_Exception e = false
         end.
Proof.
  intros Hz. destruct Hadv as [_ Hstep].
  induction fuel as [|fuel IH]; intros it results Hfuel; [lia|].
  simpl. destruct (get_next it) as [[d it']|e] eqn:Hnext.
  - destruct (Hstep _ _ _ Hnext) as [Hlt Hcur].
    rewrite (stop_test_job_local _ _ _ Hz).
    destruct (wall week_end <? wall d) eqn:Hstop.
    + eexists; split; [reflexivity|]. simpl. lia.
    + apply Z.ltb_ge in Hstop. rewrite weekday_check.
      destruct (IH it' (results ++ [to_occurrence (replace_tzinfo d job_tz)]))
        as (out & Hout & Hbound).
      { rewrite Hcur. lia. }
      exists out; split; [exact Hout|].
      destruct out as [occs|e]; [|exact Hbound].
      rewrite length_app in Hbound. simpl in Hbound.
      rewrite Hcur in Hbound. lia.
  - destruct (is_Exception e) eqn:He.
    + eexists; split; [reflexivity|]. simpl. lia.
    + eexists; split; [reflexivity|]. exact He.
Qed.
End Termination.

(** The window of a week built by [get_week_range], for a civil zone, is
    less than 9 days wide on the job's wall clock. *)
Lemma search_window_width (job_tz : tzinfo) (w : Z) :
  civil_zone job_tz ->
  exists ws we,
    search_window job_tz (get_week_range (now_at w)) = Return (ws, we)
    /\ wall we - wall ws <= timedelta 9 0.
Proof.
  intros Hciv. eexists; eexists; split; [reflexivity|].
  unfold astimezone. cbn [dt_tzinfo dt_add replace_midnight dt_sub now_at].
  destruct (same_zone job_tz DISPLAY_TZ).
  - cbn. unfold timedelta, MINUTES_PER_DAY. lia.
  - cbn. unfold utc_of, timedelta, MINUTES_PER_DAY. cbn.
    repeat match goal with
           | |- context [fromutc job_tz ?a] =>
               lazymatch goal with
               | _ : _ <= fromutc job_tz a - a <= _ |- _ => fail
               | _ => pose proof (Hciv a)
               end
           end.
    generalize dependent (weekday (now_at w)). intros k.
    generalize ((w - (k * 1440 + 0 * 60)) mod MINUTES_PER_DAY). intros r.
    lia.
Qed.

Lemma next_fire_after (fm fh : cron_field) (c : Z) : c < next_fire fm fh c.
Proof.
  unfold next_fire, MINUTES_PER_DAY.
  destruct fm as [|m], fh as [|h].
  - lia.
  - destruct (_ =? _); [lia|].
    pose proof (Z.mod_pos_bound (60 * h - (c + 1)) 1440 ltac:(lia)). lia.
  - pose proof (Z.mod_pos_bound (m - (c + 1)) 60 ltac:(lia)). lia.
  - pose proof (Z.mod_pos_bound (60 * h + m - (c + 1)) 1440 ltac:(lia)). lia.
Qed.

Lemma daily_advances : @advances daily_croniter di_cur.
Proof.
  split.
  - intros expr start it. simpl. unfold daily_new.
    destruct (parse_daily expr) as [[fm fh]|]; [|discriminate].
    intros [= <-]. reflexivity.
  - intros it d it'. simpl. unfold daily_next. intros [= <- <-]. simpl.
    split; [apply next_fire_after|reflexivity].
Qed.



(** ** Errors *)

(** C1: a job whose zone is unknown makes [get_occurrences] raise
    [ZoneInfoNotFoundError], and the exception ends the loop over the jobs
    of [generate_html]: the job after it is never expanded, although on
    its own it fills the grid. *)
Theorem unknown_zone_aborts_rendering :
  let bad := sample_job "0 9 * * *" (Some "Mars/Olympus") in
  let good := sample_job "0 9 * * *" (Some "UTC") in
  @get_occurrences daily_croniter sample_db 100 bad sample_week
  = Some (Raise ZoneInfoNotFoundError)
  /\ @build_grid daily_croniter sample_db 100 [bad; good] sample_week empty_grid
     = Some (Raise ZoneInfoNotFoundError)
  /\ exists g,
       @build_grid daily_croniter sample_db 100 [good] sample_week empty_grid
       = Some (Return g).
Proof.
  split; [vm_compute; reflexivity|].
  split; [vm_compute; reflexivity|].
  eexists. vm_compute. reflexivity.
Qed.



(** C10: when [get_next] raises an [Exception] after it has handed out
    the firing times [ds], all of them inside the window,
    [get_occurrences] returns the occurrences of [ds], one for each, and
    not the empty list. *)
Theorem partial_results_on_error `{C : Croniter} (db : gmap string tzinfo)
    (fuel : nat) (j : job) (week_days : list datetime) (job_tz : tzinfo)
    (ws we : datetime) (it it' : cron_iter) (ds : list datetime) (e : exn) :
  db !! tz_or_default j = Some job_tz ->
  search_window job_tz week_days = Return (ws, we) ->
  croniter (cron j) ws = Return it ->
  yields job_tz we it ds it' ->
  get_next it' = Raise e ->
  is_Exception e = true ->
  (length ds < fuel)%nat ->
  get_occurrences db fuel j week_days
  = Some (Return (map (fun d => to_occurrence (replace_tzinfo d job_tz)) ds))
  /\ (ds <> [] ->
      get_occurrences db fuel j week_days <> Some (Return [])).
Proof.
  intros Hdb Hwin Hnew Hy Hraise Hexc Hfuel.
  assert (Hres : get_occurrences db fuel j week_days
                 = Some (Return (map (fun d => to_occurrence (replace_tzinfo d job_tz)) ds))).
  { unfold get_occurrences, ZoneInfo. rewrite Hdb, Hwin, Hnew.
    rewrite (expand_loop_yields job_tz we it it' ds e Hy Hraise Hexc fuel [] Hfuel).
    reflexivity. }
  split; [exact Hres|].
  intros Hne. rewrite Hres. destruct ds as [|d ds]; [congruence|].
  simpl. discriminate.
Qed.

Lemma partial_results_on_error_witness :
  let C := scripted_croniter sample_script in
  let j := sample_job "0 9 * * *" (Some "UTC") in
  let utc := fixed_zone "UTC" 0 in
  let ds := [mk_datetime 1063994000 utc; mk_datetime 1063995000 utc] in
  sample_db !! tz_or_default j = Some utc
  /\ @get_next C ([Raise CroniterBadDateError], utc) = Raise CroniterBadDateError
  /\ is_Exception CroniterBadDateError = true
  /\ @get_occurrences C sample_db 3 j sample_week
     = Some (Return (map (fun d => to_occurrence (replace_tzinfo d utc)) ds))
  /\ (ds <> [] -> @get_occurrences C sample_db 3 j sample_week <> Some (Return [])).
Proof.
  intros C j utc ds.
  split; [reflexivity|]. split; [reflexivity|]. split; [reflexivity|].
  eapply (@partial_results_on_error C sample_db 3%nat j sample_week utc _ _ _
            ([Raise CroniterBadDateError], utc) ds CroniterBadDateError).
  - reflexivity.
  - reflexivity.
  - reflexivity.
  - eapply yields_cons; [reflexivity|vm_compute; reflexivity|].
    eapply yields_cons; [reflexivity|vm_compute; reflexivity|].
    apply yields_nil.
  - reflexivity.
  - reflexivity.
  - simpl. lia.
Defined.

(** ** The search window *)

Lemma dt_add_zero (d : datetime) : dt_add d (timedelta 0 0) = d.
Proof.
  destruct d as [w z]. unfold dt_add, timedelta. simpl.
  f_equal. lia.
Qed.

(** The window of a week built by [get_week_range]. *)
Lemma search_window_week (job_tz : tzinfo) (now : datetime) :
  let monday := replace_midnight (dt_sub now (timedelta (weekday now) 0)) in
  let sunday := dt_add monday (timedelta 6 0) in
  search_window job_tz (get_week_range now)
  = Return (dt_sub (astimezone monday job_tz) (timedelta 0 1),
            dt_add (astimezone sunday job_tz) (timedelta 0 25)).
Proof.
  intros monday sunday.
  destruct (get_week_range_anchors now) as [Hhead Hlast].
  fold monday in Hhead, Hlast. fold sunday in Hlast.
  unfold search_window, first_anchor, last_anchor, bind.
  rewrite Hhead, Hlast, dt_add_zero. reflexivity.
Qed.

(** C4, as the code has it: the lower bound is the first anchor (Monday
    00:00) in the job's zone minus 1 hour, the upper bound is the last
    anchor (Sunday 00:00, the start of day 7) in the job's zone plus
    25 hours. *)
Theorem search_window_bounds (job_tz : tzinfo) (now : datetime) :
  let week_days := get_week_range now in
  exists monday sunday,
    head week_days = Some monday
    /\ last week_days = Some sunday
    /\ wall sunday = wall monday + timedelta 6 0
    /\ search_window job_tz week_days
       = Return (dt_sub (astimezone monday job_tz) (timedelta 0 1),
                 dt_add (astimezone sunday job_tz) (timedelta 0 25)).
Proof.
  intros week_days.
  destruct (get_week_range_anchors now) as [Hhead Hlast]. cbv zeta in Hhead, Hlast.
  rewrite dt_add_zero in Hhead.
  eexists. eexists.
  split; [exact Hhead|]. split; [exact Hlast|]. split; [reflexivity|].
  apply search_window_week.
Qed.

(** C4, as stated: the upper bound is not the one taken from the start
    of day 8. *)
Lemma window_not_from_day_8 :
  search_window (fixed_zone "UTC" 0) sample_week
  <> window_from_day_8 (fixed_zone "UTC" 0) sample_week.
Proof.
  intros H.
  apply (f_equal (fun r => match r with
                           | Return (_, we) => wall we
                           | Raise _ => 0
                           end)) in H.
  vm_compute in H. discriminate H.
Qed.

(** ** The legend *)

Lemma dict_get_set (d : list (string * string)) (k v t : string) :
  dict_get (dict_set d k v) t
  = if String.eqb k t then Some v else dict_get d t.
Proof.
  induction d as [|[k' v'] d IH]; simpl.
  - reflexivity.
  - destruct (String.eqb k' k) eqn:Hk; simpl.
    + apply String.eqb_eq in Hk. subst k'.
      destruct (String.eqb k t); reflexivity.
    + destruct (String.eqb k' t) eqn:Ht.
      * apply String.eqb_eq in Ht. subst k'.
        rewrite String.eqb_sym, Hk. reflexivity.
      * exact IH.
Qed.

Lemma dict_set_keys (d : list (string * string)) (k v t : string) :
  t ∈ (dict_set d k v).*1 <-> t = k \/ t ∈ d.*1.
Proof.
  induction d as [|[k' v'] d IH]; simpl.
  - rewrite list_elem_of_singleton. rewrite elem_of_nil. tauto.
  - destruct (String.eqb k' k) eqn:Hk; simpl.
    + apply String.eqb_eq in Hk. subst k'.
      rewrite !elem_of_cons. tauto.
    + rewrite !elem_of_cons, IH. tauto.
Qed.

Lemma dict_set_NoDup (d : list (string * string)) (k v : string) :
  NoDup d.*1 -> NoDup (dict_set d k v).*1.
Proof.
  induction d as [|[k' v'] d IH]; simpl; intros Hnd.
  - apply NoDup_singleton.
  - apply NoDup_cons in Hnd as [Hnotin Hnd].
    destruct (String.eqb k' k) eqn:Hk; simpl.
    + apply NoDup_cons. split; assumption.
    + apply NoDup_cons. split; [|apply IH; exact Hnd].
      rewrite dict_set_keys. intros [->|Hin]; [|contradiction].
      rewrite String.eqb_refl in Hk. discriminate.
Qed.

Lemma dict_get_elem (d : list (string * string)) (t c : string) :
  NoDup d.*1 -> (t, c) ∈ d <-> dict_get d t = Some c.
Proof.
  induction d as [|[k' v'] d IH]; simpl; intros Hnd.
  - rewrite elem_of_nil. split; [tauto|discriminate].
  - apply NoDup_cons in Hnd as [Hnotin Hnd].
    rewrite elem_of_cons, (IH Hnd).
    destruct (String.eqb k' t) eqn:Ht.
    + apply String.eqb_eq in Ht. subst k'. split.
      * intros [[= ->]|Hget]; [reflexivity|].
        exfalso. apply Hnotin. apply (IH Hnd) in Hget.
        apply (list_elem_of_fmap_2 fst) in Hget. exact Hget.
      * intros [= ->]. left. reflexivity.
    + apply String.eqb_neq in Ht. split.
      * intros [[= -> _]|Hget]; [congruence|exact Hget].
      * intros Hget. right. exact Hget.
Qed.

Lemma dict_get_keys (d : list (string * string)) (t : string) :
  t ∈ d.*1 <-> is_Some (dict_get d t).
Proof.
  induction d as [|[k' v'] d IH]; simpl.
  - rewrite elem_of_nil. split; [tauto|]. intros [c Hc]. discriminate.
  - rewrite elem_of_cons, IH.
    destruct (String.eqb k' t) eqn:Ht.
    + apply String.eqb_eq in Ht. subst k'. split; eauto.
    + apply String.eqb_neq in Ht. split; [|tauto].
      intros [->|H]; [congruence|exact H].
Qed.

Lemma tag_colors_fold (jobs : list job) :
  forall d : list (string * string),
    NoDup d.*1 ->
    let d' := fold_left (fun d j => dict_set d (tag j) (color j)) jobs d in
    NoDup d'.*1
    /\ forall t, dict_get d' t
                 = match last_color jobs t with
                   | Some c => Some c
                   | None => dict_get d t
                   end.
Proof.
  induction jobs as [|j rest IH]; intros d Hnd; simpl.
  - split; [exact Hnd|reflexivity].
  - destruct (IH (dict_set d (tag j) (color j)) (dict_set_NoDup _ _ _ Hnd))
      as [Hnd' Hget].
    split; [exact Hnd'|].
    intros t. rewrite Hget, dict_get_set.
    destruct (last_color rest t); [reflexivity|].
    destruct (String.eqb (tag j) t); reflexivity.
Qed.

Lemma last_color_is_Some (jobs : list job) (t : string) :
  is_Some (last_color jobs t) <-> exists j, j ∈ jobs /\ tag j = t.
Proof.
  induction jobs as [|j rest IH]; simpl.
  - split; [intros [c Hc]; discriminate|].
    intros (j & Hin & _). apply elem_of_nil in Hin. contradiction.
  - destruct (last_color rest t) as [c|] eqn:Hlast.
    + split; [|eauto].
      intros _. destruct (proj1 IH) as (j' & Hin & Htag); [eauto|].
      exists j'. split; [apply elem_of_cons; right; exact Hin|exact Htag].
    + destruct (String.eqb (tag j) t) eqn:Ht.
      * apply String.eqb_eq in Ht. split; [|eauto].
        intros _. exists j. split; [apply elem_of_cons; left; reflexivity|exact Ht].
      * apply String.eqb_neq in Ht. split.
        -- intros [c Hc]. discriminate.
        -- intros (j' & Hin & Htag). apply elem_of_cons in Hin as [->|Hin].
           ++ contradiction.
           ++ apply IH. eauto.
Qed.


(** ** The synchroniser *)

(** C8: when the scheduler query ends with a non-zero code, or its output
    is not JSON, the entry point ends with a non-zero status and the job
    store is as it was. *)
Theorem fetch_failure_leaves_store (REPO_DIR : string)
    (json_loads : string -> option json) (json_dumps : json -> string)
    (normalize : json -> option string -> result json)
    (subprocess_run : list string -> world -> result CompletedProcess * world)
    (proc : CompletedProcess) (w : world) :
  returncode proc <> 0 \/ json_loads (stdout proc) = None ->
  let run := sync_entry REPO_DIR json_loads json_dumps (Return proc) normalize
               subprocess_run w in
  fst run <> 0 /\ jobs_file (snd run) = jobs_file w.
Proof.
  intros Hfail. unfold sync_entry, main, get_openclaw_jobs.
  destruct (returncode proc =? 0) eqn:Hrc; simpl.
  - apply Z.eqb_eq in Hrc. destruct Hfail as [Hne|Hjson]; [contradiction|].
    rewrite Hjson. simpl. split; [lia|reflexivity].
  - split; [lia|reflexivity].
Qed.

Lemma fetch_failure_leaves_store_witness :
  let proc := mk_completed 2 "" "connection refused" in
  let w := mk_world (Some "[]") [] [] in
  let loads := fun _ : string => @None json in
  let run := sync_entry "/srv/openclaw-calendar" loads (fun _ => "") (Return proc)
               (fun _ _ => Return JNull)
               (fun _ w => (Return (mk_completed 0 "" ""), w)) w in
  (returncode proc <> 0 \/ loads (stdout proc) = None)
  /\ fst run <> 0 /\ jobs_file (snd run) = jobs_file w.
Proof.
  intros proc w loads run.
  assert (H : returncode proc <> 0 \/ loads (stdout proc) = None)
    by (left; simpl; lia).
  split; [exact H|].
  exact (fetch_failure_leaves_store "/srv/openclaw-calendar" loads (fun _ => "")
           (fun _ _ => Return JNull)
           (fun _ w => (Return (mk_completed 0 "" ""), w)) proc w H).
Defined.

(** ** Iterators that follow a schedule *)

Lemma fire_seq_total (fire : Z -> Z) (bound : Z) :
  (forall c, c < fire c) ->
  forall (fuel : nat) (c : Z),
    Z.max 0 (bound - c) < Z.of_nat fuel ->
    exists ts, fire_seq fuel fire c bound = Some ts.
Proof.
  intros Hfire. induction fuel as [|fuel IH]; intros c Hfuel; [lia|].
  simpl. destruct (bound <? fire c) eqn:Hstop; [eauto|].
  apply Z.ltb_ge in Hstop. pose proof (Hfire c).
  destruct (IH (fire c)) as [ts Hts]; [lia|].
  rewrite Hts. simpl. eauto.
Qed.

Lemma fire_seq_Forall (P : Z -> Prop) (fire : Z -> Z) (bound : Z) :
  (forall c, P (fire c)) ->
  forall (fuel : nat) (c : Z) (ts : list Z),
    fire_seq fuel fire c bound = Some ts -> Forall P ts.
Proof.
  intros HP. induction fuel as [|fuel IH]; intros c ts; simpl; [discriminate|].
  destruct (bound <? fire c).
  - intros [= <-]. constructor.
  - destruct (fire_seq fuel fire (fire c) bound) as [ts'|] eqn:Hts; [|discriminate].
    simpl. intros [= <-]. constructor; [apply HP|]. eapply IH. exact Hts.
Qed.

Lemma fire_seq_nonempty (fire : Z -> Z) (bound : Z) (fuel : nat) (c : Z)
    (ts : list Z) :
  fire c <= bound -> fire_seq fuel fire c bound = Some ts -> ts <> [].
Proof.
  intros Hin. destruct fuel as [|fuel]; simpl; [discriminate|].
  destruct (bound <? fire c) eqn:Hstop; [apply Z.ltb_lt in Hstop; lia|].
  destruct (fire_seq fuel fire (fire c) bound); [|discriminate].
  simpl. intros [= <-]. discriminate.
Qed.

Section Follows.
Context `{C : Croniter}.
Variable db : gmap string tzinfo.
Variables (expr : string) (fire : Z -> Z).
Variables (cur : cron_iter -> Z) (good : cron_iter -> Prop).
Hypothesis Hfollows : follows expr fire cur good.

(** The loop sees the readings of [fire_seq], in the job's zone. *)
Lemma emitted_runs_follows (job_tz : tzinfo) (week_end : datetime) :
  same_zone job_tz (dt_tzinfo week_end) = true ->
  forall (fuel : nat) (it : cron_iter) (runs : list datetime),
    good it ->
    emitted_runs fuel job_tz week_end it runs
    = option_map
        (fun ts => Return (runs ++ map (fun t => mk_datetime t job_tz) ts))
        (fire_seq fuel fire (cur it) (wall week_end)).
Proof.
  intros Hz. destruct Hfollows as [_ Hstep].
  induction fuel as [|fuel IH]; intros it runs Hgood; simpl; [reflexivity|].
  destruct (Hstep it Hgood) as (d & it' & Hnext & Hd & Hgood' & Hcur).
  rewrite Hnext, (stop_test_job_local _ _ _ Hz), Hd.
  destruct (wall week_end <? fire (cur it)).
  - simpl. rewrite app_nil_r. reflexivity.
  - rewrite weekday_check, (IH it' _ Hgood'), Hcur, Hd.
    destruct (fire_seq fuel fire (fire (cur it)) (wall week_end)); simpl;
      [|reflexivity].
    unfold replace_tzinfo. rewrite Hd, <- app_assoc. reflexivity.
Qed.

Lemma occurrence_runs_follows (fuel : nat) (j : job)
    (week_days : list datetime) (job_tz : tzinfo) (ws we : datetime) :
  cron j = expr ->
  db !! tz_or_default j = Some job_tz ->
  search_window job_tz week_days = Return (ws, we) ->
  occurrence_runs db fuel j week_days
  = option_map
      (fun ts => Return (map (fun t => mk_datetime t job_tz) ts))
      (fire_seq fuel fire (wall ws) (wall we)).
Proof.
  intros Hexpr Hdb Hwin. unfold occurrence_runs, ZoneInfo.
  rewrite Hdb, Hwin, Hexpr.
  destruct (proj1 Hfollows ws) as (it & Hnew & Hgood & Hcur).
  rewrite Hnew, <- Hcur.
  apply (emitted_runs_follows job_tz we (search_window_zone _ _ _ _ Hwin)
           fuel it [] Hgood).
Qed.
End Follows.

Lemma daily_follows (expr : string) (fm fh : cron_field) :
  parse_daily expr = Some (fm, fh) ->
  @follows daily_croniter expr (next_fire fm fh) di_cur
    (fun it => di_minute it = fm /\ di_hour it = fh).
Proof.
  intros Hparse. split.
  - intros start. simpl. unfold daily_new. rewrite Hparse.
    eexists. split; [reflexivity|]. simpl. auto.
  - intros it [Hm Hh]. simpl. unfold daily_next. rewrite Hm, Hh.
    eexists. eexists. split; [reflexivity|]. simpl. auto.
Qed.

(** A schedule [m h * * *] fires at [h:m] and at most a day later. *)
Lemma next_fire_daily (m h c : Z) :
  0 <= m < 60 -> 0 <= h < 24 ->
  let t := next_fire (At m) (At h) c in
  t mod MINUTES_PER_DAY = 60 * h + m /\ t <= c + MINUTES_PER_DAY.
Proof.
  intros Hm Hh. unfold next_fire, MINUTES_PER_DAY. cbv zeta.
  pose proof (Z.mod_pos_bound (60 * h + m - (c + 1)) 1440 ltac:(lia)) as Hb.
  split; [|lia].
  rewrite Z.add_mod_idemp_r by lia.
  replace (c + 1 + (60 * h + m - (c + 1))) with (60 * h + m) by lia.
  apply Z.mod_small. lia.
Qed.

Lemma next_fire_daily_at (m h c q : Z) :
  0 <= m < 60 -> 0 <= h < 24 ->
  c < MINUTES_PER_DAY * q + (60 * h + m) <= c + MINUTES_PER_DAY ->
  next_fire (At m) (At h) c = MINUTES_PER_DAY * q + (60 * h + m).
Proof.
  intros Hm Hh Hq.
  pose proof (next_fire_daily m h c Hm Hh) as [Hmod Hle]. cbv zeta in Hmod, Hle.
  pose proof (next_fire_after (At m) (At h) c) as Hlt.
  unfold MINUTES_PER_DAY in *.
  revert Hmod Hle Hlt. generalize (next_fire (At m) (At h) c). intros t Hmod Hle Hlt.
  Z.div_mod_to_equations. lia.
Qed.

(** From a reading [c] whose next firing is the one of day [q], up to a
    bound that the firing of day [q + n] is the first to pass, the loop
    sees the firings of the [n] days [q, q + 1, ...]. *)
Lemma daily_fire_seq (m h bound : Z) :
  0 <= m < 60 -> 0 <= h < 24 ->
  forall (n fuel : nat) (c q : Z),
    c < MINUTES_PER_DAY * q + (60 * h + m) <= c + MINUTES_PER_DAY ->
    bound < MINUTES_PER_DAY * (q + Z.of_nat n) + (60 * h + m) ->
    ((0 < n)%nat -> MINUTES_PER_DAY * (q + Z.of_nat n - 1) + (60 * h + m) <= bound) ->
    (n < fuel)%nat ->
    fire_seq fuel (next_fire (At m) (At h)) c bound
    = Some (map (fun k => MINUTES_PER_DAY * k + (60 * h + m)) (seqZ q (Z.of_nat n))).
Proof.
  intros Hm Hh. induction n as [|n IH]; intros fuel c q Hq Hhi Hlo Hfuel;
    (destruct fuel as [|fuel]; [lia|]); cbn [fire_seq];
    rewrite (next_fire_daily_at m h c q Hm Hh Hq).
  - assert (Hstop : (bound <? MINUTES_PER_DAY * q + (60 * h + m)) = true)
      by (apply Z.ltb_lt; unfold MINUTES_PER_DAY in *; lia).
    rewrite Hstop. reflexivity.
  - assert (Hstop : (bound <? MINUTES_PER_DAY * q + (60 * h + m)) = false).
    { apply Z.ltb_ge. specialize (Hlo ltac:(lia)).
      unfold MINUTES_PER_DAY in *. lia. }
    rewrite Hstop.
    rewrite (IH fuel (MINUTES_PER_DAY * q + (60 * h + m)) (q + 1)).
    + rewrite (seqZ_cons q (Z.of_nat (S n))) by lia. simpl option_map.
      replace (Z.succ q) with (q + 1) by lia.
      replace (Z.pred (Z.of_nat (S n))) with (Z.of_nat n) by lia.
      reflexivity.
    + unfold MINUTES_PER_DAY in *. lia.
    + unfold MINUTES_PER_DAY in *. lia.
    + intros Hn. specialize (Hlo ltac:(lia)). unfold MINUTES_PER_DAY in *. lia.
    + lia.
Qed.

Lemma seqZ_shift (q lo n : Z) : seqZ (q + lo) n = map (Z.add q) (seqZ lo n).
Proof. symmetry. apply (fmap_add_seqZ q lo n). Qed.

(** The firings of the days [q + lo, ...], read as offsets from day [q]. *)
Ltac same_readings q lo :=
  cbn [option_map]; do 2 f_equal; rewrite map_map;
  match goal with
  | |- map _ (seqZ ?a ?n) = map _ (seqZ _ ?n') =>
      replace a with (q + lo) by lia; replace n with n' by lia
  end;
  rewrite seqZ_shift, map_map; apply map_ext; intros k; f_equal; lia.

(** A job that fires once a day at [h:m] in the display zone: the firing
    times kept for a week are those of [daily_count] successive days,
    from the Sunday before the week when [h:m] is after 23:00, up to the
    Monday after it when [h:m] is 01:00 or before. *)
Lemma daily_in_display_zone `{C : Croniter} (cur : cron_iter -> Z)
    (good : cron_iter -> Prop) (db : gmap string tzinfo) (fuel : nat)
    (j : job) (w m h : Z) :
  0 <= m < 60 -> 0 <= h < 24 ->
  follows (cron j) (next_fire (At m) (At h)) cur good ->
  db !! tz_or_default j = Some DISPLAY_TZ ->
  (9 <= fuel)%nat ->
  exists monday,
    head (get_week_range (now_at w)) = Some monday
    /\ wall monday mod MINUTES_PER_DAY = 0
    /\ occurrence_runs db fuel j (get_week_range (now_at w))
       = Some (Return
                 (map (fun k => mk_datetime
                                  (wall monday + MINUTES_PER_DAY * k + (60 * h + m))
                                  DISPLAY_TZ)
                    (seqZ (if 1380 <? 60 * h + m then -1 else 0)
                       (daily_count (60 * h + m))))).
Proof.
  intros Hm Hh Hfol Hdb Hfuel.
  pose proof (search_window_week DISPLAY_TZ (now_at w)) as Hwin. cbv zeta in Hwin.
  destruct (get_week_range_anchors (now_at w)) as [Hhead _]. cbv zeta in Hhead.
  rewrite dt_add_zero in Hhead.
  set (monday := replace_midnight (dt_sub (now_at w) (timedelta (weekday (now_at w)) 0)))
    in Hwin, Hhead.
  exists monday. split; [exact Hhead|].
  assert (Hmid : exists q, wall monday = MINUTES_PER_DAY * q).
  { unfold monday, replace_midnight, MINUTES_PER_DAY. cbn [wall].
    set (X := wall (dt_sub (now_at w) (timedelta (weekday (now_at w)) 0))).
    exists (X / 1440). pose proof (Z.div_mod X 1440 ltac:(lia)). lia. }
  destruct Hmid as [q Hq].
  split. { rewrite Hq. unfold MINUTES_PER_DAY. Z.div_mod_to_equations. lia. }
  unfold astimezone in Hwin.
  change (dt_tzinfo (dt_add monday (timedelta 6 0))) with DISPLAY_TZ in Hwin.
  change (dt_tzinfo monday) with DISPLAY_TZ in Hwin.
  rewrite same_zone_refl in Hwin.
  rewrite (occurrence_runs_follows db _ _ cur good Hfol fuel j _ DISPLAY_TZ _ _
             eq_refl Hdb Hwin).
  cbn [wall dt_sub dt_add]. rewrite Hq.
  unfold daily_count, timedelta, MINUTES_PER_DAY in *.
  set (x := 60 * h + m) in *.
  assert (Hx : 0 <= x < 1440) by (unfold x; lia).
  destruct (x <=? 60) eqn:Hsmall; destruct (1380 <? x) eqn:Hlarge;
    [apply Z.leb_le in Hsmall; apply Z.ltb_lt in Hlarge; lia
    |apply Z.leb_le in Hsmall; apply Z.ltb_ge in Hlarge
    |apply Z.leb_gt in Hsmall; apply Z.ltb_lt in Hlarge
    |apply Z.leb_gt in Hsmall; apply Z.ltb_ge in Hlarge].
  - rewrite (daily_fire_seq m h _ Hm Hh 8 fuel _ q);
      fold x; unfold MINUTES_PER_DAY; try lia.
    same_readings q 0.
  - rewrite (daily_fire_seq m h _ Hm Hh 8 fuel _ (q - 1));
      fold x; unfold MINUTES_PER_DAY; try lia.
    same_readings q (-1).
  - rewrite (daily_fire_seq m h _ Hm Hh 7 fuel _ q);
      fold x; unfold MINUTES_PER_DAY; try lia.
    same_readings q 0.
Qed.

(** X19: a job that fires once a day in the display zone gets exactly
    7 occurrences when it fires after 01:00 and not after 23:00, and 8
    otherwise. *)
Lemma daily_occurrence_count `{C : Croniter} (cur : cron_iter -> Z)
    (good : cron_iter -> Prop) (db : gmap string tzinfo) (fuel : nat)
    (j : job) (w m h : Z) :
  0 <= m < 60 -> 0 <= h < 24 ->
  follows (cron j) (next_fire (At m) (At h)) cur good ->
  db !! tz_or_default j = Some DISPLAY_TZ ->
  (9 <= fuel)%nat ->
  exists occs,
    get_occurrences db fuel j (get_week_range (now_at w)) = Some (Return occs)
    /\ Z.of_nat (length occs) = daily_count (60 * h + m)
    /\ (length occs = 7%nat <-> 60 < 60 * h + m <= 1380).
Proof.
  intros Hm Hh Hfol Hdb Hfuel.
  destruct (daily_in_display_zone cur good db fuel j w m h Hm Hh Hfol Hdb Hfuel)
    as (monday & _ & _ & Hruns).
  rewrite get_occurrences_runs, Hruns. simpl option_map.
  eexists. split; [reflexivity|].
  rewrite !length_map, length_seqZ.
  unfold daily_count.
  destruct (60 * h + m <=? 60) eqn:Hsmall; destruct (1380 <? 60 * h + m) eqn:Hlarge;
    [apply Z.leb_le in Hsmall; apply Z.ltb_lt in Hlarge
    |apply Z.leb_le in Hsmall; apply Z.ltb_ge in Hlarge
    |apply Z.leb_gt in Hsmall; apply Z.ltb_lt in Hlarge
    |apply Z.leb_gt in Hsmall; apply Z.ltb_ge in Hlarge]; lia.
Qed.

(** ** Occurrences near the ends of the week *)

(** C2: a job that fires once a day at 23:30 in the display zone gets
    8 occurrences for the sample week, two of them on day index 6: the
    first is the firing of the Sunday before the week, which falls in the
    hour that the lower pad adds to the search window. *)
Theorem daily_job_eight_occurrences :
  @get_occurrences daily_croniter sample_db 100
    (sample_job "30 23 * * *" (Some "Asia/Taipei")) sample_week
  = Some (Return [(6, 23, 30); (0, 23, 30); (1, 23, 30); (2, 23, 30);
                  (3, 23, 30); (4, 23, 30); (5, 23, 30); (6, 23, 30)]).
Proof. vm_compute. reflexivity. Qed.

(** C3: the first firing time kept for that job is shown by the display
    zone half an hour before the Monday 00:00 that starts the week, and
    it is emitted all the same, as an occurrence of day index 6. *)
Theorem occurrence_outside_week_emitted :
  let j := sample_job "30 23 * * *" (Some "Asia/Taipei") in
  exists r runs monday,
    head sample_week = Some monday
    /\ @occurrence_runs daily_croniter sample_db 100 j sample_week
       = Some (Return (r :: runs))
    /\ wall (astimezone r DISPLAY_TZ) = wall monday - 30
    /\ ~ in_display_week sample_week r
    /\ @get_occurrences daily_croniter sample_db 100 j sample_week
       = Some (Return ((6, 23, 30) :: map to_occurrence runs)).
Proof.
  intros j. eexists. eexists. eexists.
  split; [reflexivity|].
  split; [vm_compute; reflexivity|].
  split; [vm_compute; reflexivity|].
  split; [|vm_compute; reflexivity].
  unfold in_display_week. vm_compute. intros [H _]. apply H. reflexivity.
Qed.

(** ** A zone 9 hours ahead of the display zone *)

(** C5, as stated, fails on the sample week: of the firing times kept
    for a job at 23:30 in a zone 9 hours ahead, none is shown at 14:30 of
    the day before. *)
Lemma nine_ahead_not_previous_day :
  let j := sample_job "30 23 * * *" (Some "Test/Nine-Ahead") in
  exists runs,
    @occurrence_runs daily_croniter nine_ahead_db 100 j sample_week
    = Some (Return runs)
    /\ @get_occurrences daily_croniter nine_ahead_db 100 j sample_week
       = Some (Return (map to_occurrence runs))
    /\ runs <> []
    /\ ~ Exists shown_previous_day runs.
Proof.
  intros j. eexists.
  split; [vm_compute; reflexivity|].
  split; [vm_compute; reflexivity|].
  split; [discriminate|].
  intros H.
  repeat (apply Exists_cons in H as [H|H];
          [destruct H as [H _]; vm_compute in H; discriminate H|]).
  apply Exists_nil in H. exact H.
Qed.

(** C5, as the code has it: for a job that fires daily at 23:30 in a zone
    9 hours ahead of the display zone, [get_occurrences] returns the
    occurrences of firing times of which at least one, and in fact every
    one, is shown by the display zone at 14:30 of the firing time's own
    day. *)
Theorem nine_ahead_same_day `{C : Croniter} (cur : cron_iter -> Z)
    (good : cron_iter -> Prop) (db : gmap string tzinfo) (fuel : nat)
    (j : job) (w : Z) (key : string) :
  follows (cron j) (next_fire (At 30) (At 23)) cur good ->
  db !! tz_or_default j = Some (fixed_zone key (480 + 540)) ->
  key <> "Asia/Taipei" ->
  timedelta 9 0 < Z.of_nat fuel ->
  exists runs,
    occurrence_runs db fuel j (get_week_range (now_at w)) = Some (Return runs)
    /\ get_occurrences db fuel j (get_week_range (now_at w))
       = Some (Return (map to_occurrence runs))
    /\ Exists shown_same_day runs
    /\ Forall (fun r => hour r = 23 /\ minute r = 30 /\ shown_same_day r) runs.
Proof.
  intros Hfol Hdb Hkey Hfuel.
  set (job_tz := fixed_zone key (480 + 540)) in *.
  assert (Hzone : same_zone job_tz DISPLAY_TZ = false).
  { unfold same_zone. simpl. apply String.eqb_neq. exact Hkey. }
  assert (Hzone' : same_zone DISPLAY_TZ job_tz = false).
  { rewrite same_zone_sym. exact Hzone. }
  pose proof (search_window_week job_tz (now_at w)) as Hwin. cbv zeta in Hwin.
  set (monday := replace_midnight (dt_sub (now_at w) (timedelta (weekday (now_at w)) 0)))
    in Hwin.
  unfold astimezone in Hwin.
  change (dt_tzinfo (dt_add monday (timedelta 6 0))) with DISPLAY_TZ in Hwin.
  change (dt_tzinfo monday) with DISPLAY_TZ in Hwin.
  rewrite Hzone in Hwin.
  match type of Hwin with _ = Return (?a, ?b) => set (ws := a) in Hwin; set (we := b) in Hwin end.
  assert (Hws : wall ws = wall monday + 480).
  { unfold ws, utc_of, timedelta, MINUTES_PER_DAY. simpl. lia. }
  assert (Hwe : wall we = wall monday + 10680).
  { unfold we, utc_of, timedelta, MINUTES_PER_DAY. simpl. lia. }
  pose proof (occurrence_runs_follows db _ _ cur good Hfol fuel j _ job_tz ws we
                eq_refl Hdb Hwin) as Hruns.
  destruct (fire_seq_total (next_fire (At 30) (At 23)) (wall we)
              (next_fire_after _ _) fuel (wall ws)) as [ts Hts].
  { unfold timedelta, MINUTES_PER_DAY in Hfuel. lia. }
  rewrite Hts in Hruns. simpl in Hruns.
  exists (map (fun t => mk_datetime t job_tz) ts).
  split; [exact Hruns|].
  split; [rewrite get_occurrences_runs, Hruns; reflexivity|].
  assert (Hall : Forall (fun r => hour r = 23 /\ minute r = 30 /\ shown_same_day r)
                   (map (fun t => mk_datetime t job_tz) ts)).
  { apply Forall_map.
    eapply Forall_impl;
      [eapply (fire_seq_Forall (fun t => t mod MINUTES_PER_DAY = 60 * 23 + 30));
       [|exact Hts]|].
    - intros c. apply (next_fire_daily 30 23 c); lia.
    - intros t Ht. unfold MINUTES_PER_DAY in Ht.
      unfold shown_same_day, hour, minute, toordinal, astimezone.
      cbn [dt_tzinfo wall]. rewrite Hzone'.
      unfold utc_of, MINUTES_PER_DAY. cbn.
      repeat split; Z.div_mod_to_equations; lia. }
  split; [|exact Hall].
  assert (Hne : ts <> []).
  { eapply fire_seq_nonempty; [|exact Hts].
    pose proof (next_fire_daily 30 23 (wall ws) ltac:(lia) ltac:(lia)) as [_ Hle].
    cbv zeta in Hle. unfold MINUTES_PER_DAY in Hle. lia. }
  destruct ts as [|t ts]; [congruence|].
  simpl in Hall |- *. apply Forall_cons in Hall as [(_ & _ & Hsame) _].
  apply Exists_cons. left. exact Hsame.
Qed.

Lemma nine_ahead_same_day_witness :
  let j := sample_job "30 23 * * *" (Some "Test/Nine-Ahead") in
  let good := fun it : daily_iter => di_minute it = At 30 /\ di_hour it = At 23 in
  @follows daily_croniter (cron j) (next_fire (At 30) (At 23)) di_cur good
  /\ nine_ahead_db !! tz_or_default j
     = Some (fixed_zone "Test/Nine-Ahead" (480 + 540))
  /\ "Test/Nine-Ahead" <> "Asia/Taipei"
  /\ timedelta 9 0 < Z.of_nat (Z.to_nat 12961)
  /\ exists runs,
       @occurrence_runs daily_croniter nine_ahead_db (Z.to_nat 12961) j
         (get_week_range (now_at (wall sample_now)))
       = Some (Return runs)
       /\ @get_occurrences daily_croniter nine_ahead_db (Z.to_nat 12961) j
            (get_week_range (now_at (wall sample_now)))
          = Some (Return (map to_occurrence runs))
       /\ Exists shown_same_day runs
       /\ Forall (fun r => hour r = 23 /\ minute r = 30 /\ shown_same_day r) runs.
Proof.
  intros j good.
  assert (H1 : @follows daily_croniter (cron j) (next_fire (At 30) (At 23))
                 di_cur good)
    by (apply daily_follows; reflexivity).
  assert (H2 : nine_ahead_db !! tz_or_default j
               = Some (fixed_zone "Test/Nine-Ahead" (480 + 540))) by reflexivity.
  assert (H3 : "Test/Nine-Ahead" <> "Asia/Taipei") by discriminate.
  assert (H4 : timedelta 9 0 < Z.of_nat (Z.to_nat 12961)) by (vm_compute; reflexivity).
  split; [exact H1|]. split; [exact H2|]. split; [exact H3|]. split; [exact H4|].
  exact (@nine_ahead_same_day daily_croniter di_cur good nine_ahead_db
           (Z.to_nat 12961) j (wall sample_now) "Test/Nine-Ahead" H1 H2 H3 H4).
Defined.

(** * Further properties *)

(** ** The week *)

Lemma week_anchor (now : datetime) (i : Z) :
  0 <= i < 7 ->
  let monday := replace_midnight (dt_sub now (timedelta (weekday now) 0)) in
  let d := dt_add monday (timedelta i 0) in
  weekday d = i /\ hour d = 0 /\ minute d = 0
  /\ toordinal d = toordinal monday + i.
Proof.
  intros Hi monday d.
  unfold d, monday, weekday, hour, minute, toordinal, replace_midnight, dt_add,
    dt_sub, timedelta, MINUTES_PER_DAY. cbn [wall].
  generalize (wall now). intros n.
  repeat split; Z.div_mod_to_equations; lia.
Qed.

Lemma week_holds_now (now : datetime) :
  let monday := replace_midnight (dt_sub now (timedelta (weekday now) 0)) in
  wall monday <= wall now < wall monday + timedelta 7 0
  /\ toordinal now = toordinal monday + weekday now
  /\ 0 <= weekday now < 7.
Proof.
  intros monday.
  unfold monday, weekday, toordinal, replace_midnight, dt_sub, timedelta,
    MINUTES_PER_DAY. cbn [wall].
  generalize (wall now). intros n.
  repeat split; Z.div_mod_to_equations; lia.
Qed.

Lemma get_week_range_lookup (now : datetime) (i : nat) (d : datetime) :
  get_week_range now !! i = Some d ->
  (i < 7)%nat
  /\ d = dt_add (replace_midnight (dt_sub now (timedelta (weekday now) 0)))
           (timedelta (Z.of_nat i) 0).
Proof.
  intros Hd. unfold get_week_range in Hd.
  apply list_lookup_fmap_Some in Hd as (z & -> & Hz).
  apply lookup_seqZ in Hz as [-> Hlt].
  split; [lia|]. rewrite Z.add_0_l. reflexivity.
Qed.

(** X1: the week built by [get_week_range] has 7 anchors in the zone of
    the clock reading; anchor [i] is at 00:00 of weekday [i], [i] days
    after the first; the reading lies in the 7 days from the first
    anchor on. *)
Theorem get_week_range_shape (now : datetime) :
  length (get_week_range now) = 7%nat
  /\ (exists monday,
         head (get_week_range now) = Some monday
         /\ wall monday <= wall now < wall monday + timedelta 7 0
         /\ forall (i : nat) (d : datetime),
             get_week_range now !! i = Some d ->
             weekday d = Z.of_nat i /\ hour d = 0 /\ minute d = 0
             /\ dt_tzinfo d = dt_tzinfo now
             /\ wall d = wall monday + timedelta (Z.of_nat i) 0).
Proof.
  split; [reflexivity|].
  destruct (get_week_range_anchors now) as [Hhead _]. cbv zeta in Hhead.
  rewrite dt_add_zero in Hhead.
  eexists. split; [exact Hhead|].
  split; [apply (week_holds_now now)|].
  intros i d Hd. apply get_week_range_lookup in Hd as [Hi ->].
  destruct (week_anchor now (Z.of_nat i) ltac:(lia)) as (Hw & Hh & Hm & _).
  cbv zeta in Hw, Hh, Hm.
  split; [exact Hw|]. split; [exact Hh|]. split; [exact Hm|].
  split; reflexivity.
Qed.

(** ** The header of the current day *)

Lemma get_week_range_lookup_lt (now : datetime) (i : nat) :
  (i < 7)%nat ->
  get_week_range now !! i
  = Some (dt_add (replace_midnight (dt_sub now (timedelta (weekday now) 0)))
            (timedelta (Z.of_nat i) 0)).
Proof.
  intros Hi. unfold get_week_range.
  rewrite list_lookup_fmap, (lookup_seqZ_lt 0 7 i) by lia.
  simpl. rewrite Z.add_0_l. reflexivity.
Qed.

Lemma map_result_Return {A B : Type} (f : A -> result B) (g : A -> B)
    (l : list A) :
  Forall (fun a => f a = Return (g a)) l -> map_result f l = Return (map g l).
Proof.
  induction 1 as [|a l Ha _ IH]; simpl; [reflexivity|].
  rewrite Ha, IH. reflexivity.
Qed.

(** Within the week, the anchor of the day of the reading is the one of
    index [weekday]. *)
Lemma same_date_in_week (w1 w2 : Z) (i : nat) (monday d : datetime) :
  head (get_week_range (now_at w1)) = Some monday ->
  wall monday <= w2 < wall monday + timedelta 7 0 ->
  get_week_range (now_at w1) !! i = Some d ->
  same_date d (now_at w2) = bool_decide (Z.of_nat i = weekday (now_at w2)).
Proof.
  intros Hhead Hin Hd.
  destruct (get_week_range_anchors (now_at w1)) as [Hhead' _]. cbv zeta in Hhead'.
  rewrite dt_add_zero, Hhead in Hhead'. injection Hhead' as ->.
  apply get_week_range_lookup in Hd as [Hi ->].
  destruct (week_anchor (now_at w1) 0 ltac:(lia)) as (Hw0 & Hh0 & Hm0 & _).
  destruct (week_anchor (now_at w1) (Z.of_nat i) ltac:(lia)) as (_ & _ & _ & Hord).
  cbv zeta in Hw0, Hh0, Hm0, Hord. rewrite dt_add_zero in Hw0, Hh0, Hm0.
  unfold same_date. rewrite Hord.
  set (monday := replace_midnight
                   (dt_sub (now_at w1) (timedelta (weekday (now_at w1)) 0))) in *.
  unfold weekday, hour, minute, toordinal, timedelta, MINUTES_PER_DAY in *.
  cbn [wall now_at] in *. revert Hw0 Hh0 Hm0 Hin. generalize (wall monday).
  intros m Hw0 Hh0 Hm0 Hin.
  destruct (bool_decide_reflect (Z.of_nat i = (w2 / 1440 + 1 + 6) mod 7)) as [He|He].
  - apply Z.eqb_eq. Z.div_mod_to_equations. lia.
  - apply Z.eqb_neq. intros Heq. apply He. Z.div_mod_to_equations. lia.
Qed.



(** ** What [get_occurrences] returns and raises *)

Lemma to_occurrence_in_range (r : datetime) : occurrence_in_range (to_occurrence r).
Proof.
  unfold occurrence_in_range, to_occurrence. cbn [fst snd].
  split; [apply weekday_range|].
  unfold hour, minute, MINUTES_PER_DAY.
  generalize (wall (astimezone r DISPLAY_TZ)). intros n.
  split; Z.div_mod_to_equations; lia.
Qed.

Section Results.
Context `{C : Croniter}.
Variable db : gmap string tzinfo.

Lemma expand_loop_in_range (job_tz : tzinfo) (week_end : datetime) :
  forall (fuel : nat) (it : cron_iter) (results occs : list occurrence),
    Forall occurrence_in_range results ->
    expand_loop fuel job_tz week_end it results = Some (Return occs) ->
    Forall occurrence_in_range occs.
Proof.
  induction fuel as [|fuel IH]; intros it results occs Hres; simpl; [discriminate|].
  destruct (get_next it) as [[d it']|e].
  - destruct (datetime_gt (replace_tzinfo d job_tz) week_end).
    + intros [= <-]. exact Hres.
    + rewrite weekday_check. apply IH.
      apply Forall_app. split; [exact Hres|].
      apply Forall_singleton.
      apply (to_occurrence_in_range (replace_tzinfo d job_tz)).
  - destruct (is_Exception e); [|discriminate]. intros [= <-]. exact Hres.
Qed.

Lemma expand_loop_raise (job_tz : tzinfo) (week_end : datetime) (e : exn) :
  forall (fuel : nat) (it : cron_iter) (results : list occurrence),
    expand_loop fuel job_tz week_end it results = Some (Raise e) ->
    is_Exception e = false.
Proof.
  induction fuel as [|fuel IH]; intros it results; simpl; [discriminate|].
  destruct (get_next it) as [[d it']|e'].
  - destruct (datetime_gt (replace_tzinfo d job_tz) week_end); [discriminate|].
    rewrite weekday_check. apply IH.
  - destruct (is_Exception e') eqn:He; [discriminate|].
    intros [= <-]. exact He.
Qed.

Lemma get_occurrences_all_in_range (fuel : nat) (j : job)
    (week_days : list datetime) (occs : list occurrence) :
  get_occurrences db fuel j week_days = Some (Return occs) ->
  forall o, o ∈ occs -> 0 <= o.1.1 <= 6 /\ 0 <= o.1.2 <= 23.
Proof.
  unfold get_occurrences.
  destruct (ZoneInfo db (tz_or_default j)) as [job_tz|e]; [|discriminate].
  destruct (search_window job_tz week_days) as [[ws we]|e]; [|discriminate].
  destruct (croniter (cron j) ws) as [it|e].
  - intros Hloop o Ho.
    pose proof (expand_loop_in_range job_tz we fuel it [] occs (Forall_nil_2 _) Hloop)
      as Hall.
    rewrite Forall_forall in Hall. destruct (Hall o Ho) as (Hd & Hh & _). auto.
  - destruct (is_Exception e); [|discriminate]. intros [= <-] o Ho.
    apply elem_of_nil in Ho. contradiction.
Qed.

(** X3: every occurrence that [get_occurrences] returns has its day index
    in 0..6, its hour in 0..23 and its minute in 0..59. *)
Theorem occurrences_in_range (fuel : nat) (j : job) (week_days : list datetime)
    (occs : list occurrence) :
  get_occurrences db fuel j week_days = Some (Return occs) ->
  Forall occurrence_in_range occs.
Proof.
  unfold get_occurrences.
  destruct (ZoneInfo db (tz_or_default j)) as [job_tz|e]; [|discriminate].
  destruct (search_window job_tz week_days) as [[ws we]|e]; [|discriminate].
  destruct (croniter (cron j) ws) as [it|e].
  - apply expand_loop_in_range. constructor.
  - destruct (is_Exception e); [|discriminate]. intros [= <-]. constructor.
Qed.

End Results.

Lemma occurrences_in_range_witness :
  let occs := [(0, 8, 0); (1, 8, 0); (2, 8, 0); (3, 8, 0); (4, 8, 0); (5, 8, 0);
               (6, 8, 0)] in
  @get_occurrences daily_croniter sample_db 100 (sample_job "0 0 * * *" None)
    sample_week = Some (Return occs)
  /\ Forall occurrence_in_range occs.
Proof.
  intros occs.
  assert (H : @get_occurrences daily_croniter sample_db 100
                (sample_job "0 0 * * *" None) sample_week = Some (Return occs))
    by (vm_compute; reflexivity).
  split; [exact H|].
  exact (@occurrences_in_range daily_croniter sample_db 100
           (sample_job "0 0 * * *" None) sample_week occs H).
Defined.


(** ** Order and completeness of the firing times *)

Section Order.
Context `{C : Croniter}.
Variable db : gmap string tzinfo.
Variable cur : cron_iter -> Z.
Hypothesis Hadv : advances cur.

Lemma emitted_runs_sorted (job_tz : tzinfo) (week_end : datetime) :
  same_zone job_tz (dt_tzinfo week_end) = true ->
  forall (fuel : nat) (it : cron_iter) (runs0 runs : list datetime),
    emitted_runs fuel job_tz week_end it runs0 = Some (Return runs) ->
    exists new,
      runs = runs0 ++ new
      /\ Forall (fun r => cur it < wall r <= wall week_end /\ dt_tzinfo r = job_tz) new
      /\ StronglySorted (fun a b => wall a < wall b) new.
Proof.
  intros Hz. destruct Hadv as [_ Hstep].
  induction fuel as [|fuel IH]; intros it runs0 runs; simpl; [discriminate|].
  destruct (get_next it) as [[d it']|e] eqn:Hnext.
  - destruct (Hstep _ _ _ Hnext) as [Hlt Hcur].
    rewrite (stop_test_job_local _ _ _ Hz).
    destruct (wall week_end <? wall d) eqn:Hstop.
    + intros [= <-]. exists []. rewrite app_nil_r.
      split; [reflexivity|]. split; constructor.
    + apply Z.ltb_ge in Hstop. rewrite weekday_check. intros Hrec.
      destruct (IH _ _ _ Hrec) as (new & -> & Hall & Hsorted).
      exists (replace_tzinfo d job_tz :: new).
      split; [rewrite <- app_assoc; reflexivity|].
      rewrite Hcur in Hall. split.
      * constructor; [simpl; split; [lia|reflexivity]|].
        eapply Forall_impl; [exact Hall|]. simpl. intros r [Hr Hzr].
        split; [lia|exact Hzr].
      * constructor; [exact Hsorted|].
        eapply Forall_impl; [exact Hall|]. simpl. intros r [Hr _]. lia.
  - destruct (is_Exception e); [|discriminate].
    intros [= <-]. exists []. rewrite app_nil_r.
    split; [reflexivity|]. split; constructor.
Qed.

(** X5: with an iterator whose firing times increase, the firing times
    kept for a job come in strictly increasing order, each after the lower
    bound of the search window and not after its upper bound, on the wall
    clock of the job's zone; the occurrences returned are theirs, in the
    same order. *)
Theorem runs_increase_within_window (fuel : nat) (j : job)
    (week_days : list datetime) (job_tz : tzinfo) (ws we : datetime)
    (runs : list datetime) :
  db !! tz_or_default j = Some job_tz ->
  search_window job_tz week_days = Return (ws, we) ->
  occurrence_runs db fuel j week_days = Some (Return runs) ->
  StronglySorted (fun a b => wall a < wall b) runs
  /\ Forall (fun r => wall ws < wall r <= wall we /\ dt_tzinfo r = job_tz) runs
  /\ get_occurrences db fuel j week_days = Some (Return (map to_occurrence runs)).
Proof.
  intros Hdb Hwin Hruns.
  split; [|split; [|rewrite get_occurrences_runs, Hruns; reflexivity]];
    unfold occurrence_runs, ZoneInfo in Hruns; rewrite Hdb, Hwin in Hruns;
    destruct (croniter (cron j) ws) as [it|e] eqn:Hnew.
  - destruct (emitted_runs_sorted job_tz we
                (search_window_zone _ _ _ _ Hwin) fuel it [] runs Hruns)
      as (new & -> & _ & Hsorted). exact Hsorted.
  - destruct (is_Exception e); [|discriminate]. injection Hruns as <-. constructor.
  - destruct (emitted_runs_sorted job_tz we
                (search_window_zone _ _ _ _ Hwin) fuel it [] runs Hruns)
      as (new & -> & Hall & _).
    rewrite (proj1 Hadv _ _ _ Hnew) in Hall. exact Hall.
  - destruct (is_Exception e); [|discriminate]. injection Hruns as <-. constructor.
Qed.
End Order.

Lemma runs_increase_within_window_witness :
  let j := sample_job "0 0 * * *" None in
  let utc := fixed_zone "UTC" 0 in
  let ws := mk_datetime 1063993860 utc in
  let we := mk_datetime 1064004060 utc in
  let runs := map (fun t => mk_datetime t utc)
                [1063994400; 1063995840; 1063997280; 1063998720; 1064000160;
                 1064001600; 1064003040] in
  sample_db !! tz_or_default j = Some utc
  /\ search_window utc sample_week = Return (ws, we)
  /\ @occurrence_runs daily_croniter sample_db 100 j sample_week = Some (Return runs)
  /\ StronglySorted (fun a b => wall a < wall b) runs
  /\ Forall (fun r => wall ws < wall r <= wall we /\ dt_tzinfo r = utc) runs
  /\ @get_occurrences daily_croniter sample_db 100 j sample_week
     = Some (Return (map to_occurrence runs)).
Proof.
  intros j utc ws we runs.
  assert (H1 : sample_db !! tz_or_default j = Some utc) by reflexivity.
  assert (H2 : search_window utc sample_week = Return (ws, we)) by reflexivity.
  assert (H3 : @occurrence_runs daily_croniter sample_db 100 j sample_week
               = Some (Return runs)) by reflexivity.
  split; [exact H1|]. split; [exact H2|]. split; [exact H3|].
  exact (@runs_increase_within_window daily_croniter sample_db di_cur
           daily_advances 100 j sample_week utc ws we runs H1 H2 H3).
Defined.

Lemma iter_fire_ge (fire : Z -> Z) :
  (forall c, c < fire c) -> forall (k : nat) (c : Z), c <= Nat.iter k fire c.
Proof.
  intros Hfire. induction k as [|k IH]; intros c; simpl; [lia|].
  pose proof (IH c). pose proof (Hfire (Nat.iter k fire c)). lia.
Qed.

Lemma fire_seq_complete (fire : Z -> Z) (bound : Z) :
  (forall c, c < fire c) ->
  forall (fuel : nat) (c : Z) (ts : list Z) (k : nat),
    fire_seq fuel fire c bound = Some ts ->
    Nat.iter (S k) fire c <= bound ->
    Nat.iter (S k) fire c ∈ ts.
Proof.
  intros Hfire. induction fuel as [|fuel IH]; intros c ts k; simpl fire_seq;
    [discriminate|].
  rewrite Nat.iter_succ_r.
  pose proof (iter_fire_ge fire Hfire k (fire c)) as Hge.
  destruct (bound <? fire c) eqn:Hstop.
  - apply Z.ltb_lt in Hstop. intros _ Hle. lia.
  - destruct (fire_seq fuel fire (fire c) bound) as [ts'|] eqn:Hts; [|discriminate].
    simpl. intros [= <-] Hle. destruct k as [|k].
    + simpl. apply elem_of_cons. left. reflexivity.
    + apply elem_of_cons. right.
      apply (IH (fire c) ts' k Hts). exact Hle.
Qed.

(** X6: for a job in a zone of fixed offset and an iterator that follows
    a schedule, no firing of the week is missed: every firing time after
    the lower bound of the search window that the display zone shows
    inside the week, from Monday 00:00 up to the following Monday 00:00,
    is among the firing times kept. *)
Theorem week_firings_all_emitted `{C : Croniter} (cur : cron_iter -> Z)
    (good : cron_iter -> Prop) (db : gmap string tzinfo) (fuel : nat) (j : job)
    (w : Z) (key : string) (off : Z) (fire : Z -> Z) (ws we : datetime)
    (runs : list datetime) (k : nat) :
  follows (cron j) fire cur good ->
  (forall c, c < fire c) ->
  db !! tz_or_default j = Some (fixed_zone key off) ->
  (key = "Asia/Taipei" -> off = 480) ->
  search_window (fixed_zone key off) (get_week_range (now_at w)) = Return (ws, we) ->
  occurrence_runs db fuel j (get_week_range (now_at w)) = Some (Return runs) ->
  in_display_week (get_week_range (now_at w))
    (mk_datetime (Nat.iter (S k) fire (wall ws)) (fixed_zone key off)) ->
  mk_datetime (Nat.iter (S k) fire (wall ws)) (fixed_zone key off) ∈ runs.
Proof.
  intros Hfol Hfire Hdb Hkey Hwin Hruns Hin.
  set (job_tz := fixed_zone key off) in *.
  rewrite (occurrence_runs_follows db _ _ cur good Hfol fuel j _ job_tz ws we
             eq_refl Hdb Hwin) in Hruns.
  destruct (fire_seq fuel fire (wall ws) (wall we)) as [ts|] eqn:Hts;
    [|discriminate].
  injection Hruns as <-.
  apply (list_elem_of_fmap_2 (fun t => mk_datetime t job_tz)).
  apply (fire_seq_complete fire (wall we) Hfire fuel (wall ws) ts k Hts).
  set (t := Nat.iter (S k) fire (wall ws)) in *.
  pose proof (search_window_week job_tz (now_at w)) as Hwin'. cbv zeta in Hwin'.
  rewrite Hwin in Hwin'. injection Hwin' as Hws Hwe.
  unfold in_display_week in Hin.
  destruct (get_week_range_anchors (now_at w)) as [Hhead _]. cbv zeta in Hhead.
  rewrite dt_add_zero in Hhead. rewrite Hhead in Hin.
  set (monday := replace_midnight
                   (dt_sub (now_at w) (timedelta (weekday (now_at w)) 0))) in *.
  rewrite Hwe. unfold astimezone in Hin |- *.
  change (dt_tzinfo (dt_add monday (timedelta 6 0))) with DISPLAY_TZ.
  cbn [dt_tzinfo] in Hin. rewrite (same_zone_sym DISPLAY_TZ job_tz) in Hin.
  unfold same_zone in Hin |- *. cbn [tz_key job_tz fixed_zone DISPLAY_TZ] in Hin |- *.
  destruct (String.eqb key "Asia/Taipei") eqn:Hsame.
  - apply String.eqb_eq in Hsame. specialize (Hkey Hsame).
    cbn [wall dt_add] in Hin |- *.
    unfold timedelta, MINUTES_PER_DAY in *. clearbody t monday. lia.
  - unfold utc_of in Hin |- *.
    cbn [wall dt_add dt_tzinfo] in Hin |- *.
    change (dt_tzinfo monday) with DISPLAY_TZ.
    cbn [utcoffset fromutc job_tz fixed_zone DISPLAY_TZ] in Hin |- *.
    unfold timedelta, MINUTES_PER_DAY in *. clearbody t monday. lia.
Qed.

Lemma week_firings_all_emitted_witness :
  let j := sample_job "30 23 * * *" (Some "Asia/Tokyo") in
  let tokyo := fixed_zone "Asia/Tokyo" 540 in
  let good := fun it : daily_iter => di_minute it = At 30 /\ di_hour it = At 23 in
  let fire := next_fire (At 30) (At 23) in
  let ws := mk_datetime 1063994400 tokyo in
  let we := mk_datetime 1064004600 tokyo in
  let week := get_week_range (now_at (wall sample_now)) in
  exists runs,
    @occurrence_runs daily_croniter sample_db 100 j week = Some (Return runs)
    /\ in_display_week week (mk_datetime (Nat.iter 1 fire (wall ws)) tokyo)
    /\ mk_datetime (Nat.iter 1 fire (wall ws)) tokyo ∈ runs.
Proof.
  intros j tokyo good fire ws we week.
  assert (H1 : @follows daily_croniter (cron j) fire di_cur good)
    by (apply daily_follows; reflexivity).
  assert (H2 : forall c, c < fire c) by (intros c; apply next_fire_after).
  assert (H3 : sample_db !! tz_or_default j = Some tokyo) by reflexivity.
  assert (H4 : "Asia/Tokyo" = "Asia/Taipei" -> 540 = 480) by discriminate.
  assert (H5 : search_window tokyo week = Return (ws, we)) by reflexivity.
  eexists.
  assert (H6 : @occurrence_runs daily_croniter sample_db 100 j week
               = Some (Return
                         (map (fun t => mk_datetime t tokyo)
                            [1063995810; 1063997250; 1063998690; 1064000130;
                             1064001570; 1064003010; 1064004450])))
    by (vm_compute; reflexivity).
  assert (H7 : in_display_week week (mk_datetime (Nat.iter 1 fire (wall ws)) tokyo))
    by (vm_compute; split; [discriminate|reflexivity]).
  split; [exact H6|]. split; [exact H7|].
  exact (@week_firings_all_emitted daily_croniter di_cur good sample_db 100 j
           (wall sample_now) "Asia/Tokyo" 540 fire ws we _ 0%nat
           H1 H2 H3 H4 H5 H6 H7).
Defined.

Lemma daily_occurrence_count_witness :
  let j := sample_job "30 23 * * *" (Some "Asia/Taipei") in
  let good := fun it : daily_iter => di_minute it = At 30 /\ di_hour it = At 23 in
  @follows daily_croniter (cron j) (next_fire (At 30) (At 23)) di_cur good
  /\ sample_db !! tz_or_default j = Some DISPLAY_TZ
  /\ exists occs,
       @get_occurrences daily_croniter sample_db 100 j
         (get_week_range (now_at (wall sample_now))) = Some (Return occs)
       /\ Z.of_nat (length occs) = daily_count (60 * 23 + 30)
       /\ (length occs = 7%nat <-> 60 < 60 * 23 + 30 <= 1380).
Proof.
  intros j good.
  assert (H1 : @follows daily_croniter (cron j) (next_fire (At 30) (At 23))
                 di_cur good) by (apply daily_follows; reflexivity).
  assert (H2 : sample_db !! tz_or_default j = Some DISPLAY_TZ) by reflexivity.
  split; [exact H1|]. split; [exact H2|].
  exact (@daily_occurrence_count daily_croniter di_cur good sample_db 100 j
           (wall sample_now) 30 23 ltac:(lia) ltac:(lia) H1 H2 ltac:(lia)).
Defined.

(** ** The grid *)

Lemma grid_shape_empty : grid_shape empty_grid.
Proof.
  split; [reflexivity|]. unfold empty_grid.
  apply Forall_replicate. reflexivity.
Qed.

Lemma grid_cell_empty (d h : nat) : grid_cell empty_grid d h = [].
Proof.
  unfold grid_cell, empty_grid, grid.
  destruct (decide (d < 7)%nat) as [Hd|Hd].
  - rewrite lookup_replicate_2 by exact Hd. cbn [mbind option_bind].
    destruct (decide (h < 24)%nat) as [Hh|Hh].
    + rewrite lookup_replicate_2 by exact Hh. reflexivity.
    + rewrite lookup_ge_None_2; [reflexivity|]. rewrite length_replicate. lia.
  - rewrite lookup_ge_None_2; [reflexivity|]. rewrite length_replicate. lia.
Qed.

(** An append at an index inside the grid succeeds and touches one cell. *)
Lemma grid_append_spec (g : grid) (day_idx hr : Z) (j : job) :
  grid_shape g -> 0 <= day_idx <= 6 -> 0 <= hr <= 23 ->
  exists g',
    grid_append g day_idx hr j = Return g'
    /\ grid_shape g'
    /\ forall d h,
        grid_cell g' d h
        = if bool_decide (day_idx = Z.of_nat d /\ hr = Z.of_nat h)
          then grid_cell g d h ++ [j]
          else grid_cell g d h.
Proof.
  intros [Hlen Hrows] Hd Hh.
  unfold grid_append, py_index, bind, grid_shape, grid_cell, grid in *.
  rewrite Hlen.
  assert (Hd' : (0 <=? day_idx) && (day_idx <? Z.of_nat 7) = true)
    by (apply andb_true_intro; split; [apply Z.leb_le|apply Z.ltb_lt]; lia).
  rewrite Hd'.
  destruct (g !! Z.to_nat day_idx) as [row|] eqn:Hrow;
    [|apply lookup_ge_None in Hrow; lia].
  assert (Hrowlen : length row = 24%nat).
  { rewrite Forall_forall in Hrows. apply Hrows.
    apply list_elem_of_lookup. eauto. }
  rewrite Hrowlen.
  assert (Hh' : (0 <=? hr) && (hr <? Z.of_nat 24) = true)
    by (apply andb_true_intro; split; [apply Z.leb_le|apply Z.ltb_lt]; lia).
  rewrite Hh'. eexists. split; [reflexivity|]. split.
  - split; [rewrite length_alter; exact Hlen|].
    apply Forall_alter; [exact Hrows|].
    intros row' _ Hlen'. rewrite length_alter. exact Hlen'.
  - intros d h.
    destruct (decide (Z.to_nat day_idx = d)) as [<-|Hned].
    + rewrite list_lookup_alter_eq, Hrow. simpl.
      destruct (decide (Z.to_nat hr = h)) as [<-|Hneh].
      * rewrite list_lookup_alter_eq.
        rewrite bool_decide_eq_true_2 by lia.
        destruct (row !! Z.to_nat hr) as [cell|] eqn:Hcell; [reflexivity|].
        apply lookup_ge_None in Hcell. lia.
      * rewrite list_lookup_alter_ne by exact Hneh.
        rewrite bool_decide_eq_false_2 by lia. reflexivity.
    + rewrite list_lookup_alter_ne by exact Hned.
      rewrite bool_decide_eq_false_2 by lia. reflexivity.
Qed.

Lemma cell_entries_cons (j : job) (o : occurrence) (occs : list occurrence)
    (d h : nat) :
  cell_entries j (o :: occs) d h
  = (if bool_decide (o.1.1 = Z.of_nat d /\ o.1.2 = Z.of_nat h) then [j] else [])
    ++ cell_entries j occs d h.
Proof.
  unfold cell_entries. rewrite filter_cons.
  destruct (decide (o.1.1 = Z.of_nat d /\ o.1.2 = Z.of_nat h)) as [Ho|Ho].
  - rewrite bool_decide_eq_true_2 by exact Ho. reflexivity.
  - rewrite bool_decide_eq_false_2 by exact Ho. reflexivity.
Qed.

Lemma place_occurrences_spec (j : job) (occs : list occurrence) :
  Forall (fun o : occurrence => 0 <= o.1.1 <= 6 /\ 0 <= o.1.2 <= 23) occs ->
  forall g : grid,
    grid_shape g ->
    exists g',
      place_occurrences g j occs = Return g'
      /\ grid_shape g'
      /\ forall d h, grid_cell g' d h = grid_cell g d h ++ cell_entries j occs d h.
Proof.
  induction 1 as [|[[day_idx hr] mi] occs (Hd & Hh) _ IH]; intros g Hg.
  - exists g. split; [reflexivity|]. split; [exact Hg|].
    intros d h. unfold cell_entries. simpl. rewrite app_nil_r. reflexivity.
  - cbn [fst snd] in Hd, Hh.
    destruct (grid_append_spec g day_idx hr j Hg Hd Hh) as (g1 & Happ & Hg1 & Hcell1).
    destruct (IH g1 Hg1) as (g' & Hplace & Hg' & Hcell').
    exists g'. split; [simpl; rewrite Happ; exact Hplace|]. split; [exact Hg'|].
    intros d h. rewrite Hcell', Hcell1, cell_entries_cons. cbn [fst snd].
    destruct (bool_decide (day_idx = Z.of_nat d /\ hr = Z.of_nat h)).
    + rewrite <- app_assoc. reflexivity.
    + reflexivity.
Qed.

Section Grid.
Context `{C : Croniter}.
Variable db : gmap string tzinfo.

Lemma build_grid_spec (fuel : nat) (week_days : list datetime) :
  forall (jobs : list job) (g : grid) (out : result grid),
    grid_shape g ->
    build_grid db fuel jobs week_days g = Some out ->
    match out with
    | Return g' =>
        grid_shape g'
        /\ forall d h,
            grid_cell g' d h
            = grid_cell g d h
              ++ flat_map (fun j => match get_occurrences db fuel j week_days with
                                    | Some (Return occs) => cell_entries j occs d h
                                    | _ => []
                                    end) jobs
    | Raise e =>
        exists j, j ∈ jobs /\ get_occurrences db fuel j week_days = Some (Raise e)
    end.
Proof.
  induction jobs as [|j rest IH]; intros g out Hg; simpl.
  - intros [= <-]. split; [exact Hg|]. intros d h. rewrite app_nil_r. reflexivity.
  - destruct (get_occurrences db fuel j week_days) as [[occs|e]|] eqn:Hocc;
      [|intros [= <-]; exists j; split; [apply elem_of_cons; left; reflexivity|exact Hocc]
       |discriminate].
    destruct (place_occurrences_spec j occs
                (proj2 (Forall_forall _ _)
                   (get_occurrences_all_in_range db fuel j week_days occs Hocc)) g Hg)
      as (g1 & Hplace & Hg1 & Hcell1).
    rewrite Hplace. intros Hrest. specialize (IH g1 out Hg1 Hrest).
    destruct out as [g'|e].
    + destruct IH as [Hg' Hcell']. split; [exact Hg'|].
      intros d h. rewrite Hcell', Hcell1, <- app_assoc. reflexivity.
    + destruct IH as (j' & Hin & Hj'). exists j'.
      split; [apply elem_of_cons; right; exact Hin|exact Hj'].
Qed.

(** X7: an exception that ends the filling of the grid is an exception of
    [get_occurrences] for one of the jobs: the subscripts
    [grid[day_idx][hour]] are never out of range. *)
Theorem build_grid_errors (fuel : nat) (jobs : list job)
    (week_days : list datetime) (e : exn) :
  build_grid db fuel jobs week_days empty_grid = Some (Raise e) ->
  exists j, j ∈ jobs /\ get_occurrences db fuel j week_days = Some (Raise e).
Proof.
  intros H.
  exact (build_grid_spec fuel week_days jobs empty_grid (Raise e) grid_shape_empty H).
Qed.

(** X8: the grid filled from the empty one keeps its 7 rows of 24 cells,
    and each cell holds, job after job in the order of the list, one
    reference to the job for each of its occurrences at that day and
    hour. *)
Theorem build_grid_cells (fuel : nat) (jobs : list job)
    (week_days : list datetime) (g : grid) :
  build_grid db fuel jobs week_days empty_grid = Some (Return g) ->
  grid_shape g
  /\ forall d h,
      grid_cell g d h
      = flat_map (fun j => match get_occurrences db fuel j week_days with
                           | Some (Return occs) => cell_entries j occs d h
                           | _ => []
                           end) jobs.
Proof.
  intros H.
  destruct (build_grid_spec fuel week_days jobs empty_grid (Return g)
              grid_shape_empty H) as [Hg Hcell].
  split; [exact Hg|]. intros d h. rewrite Hcell, grid_cell_empty. reflexivity.
Qed.
End Grid.

Lemma build_grid_errors_witness :
  let bad := sample_job "0 9 * * *" (Some "Mars/Olympus") in
  let good := sample_job "0 9 * * *" (Some "UTC") in
  @build_grid daily_croniter sample_db 100 [good; bad] sample_week empty_grid
  = Some (Raise ZoneInfoNotFoundError)
  /\ exists j,
       j ∈ [good; bad]
       /\ @get_occurrences daily_croniter sample_db 100 j sample_week
          = Some (Raise ZoneInfoNotFoundError).
Proof.
  intros bad good.
  assert (H : @build_grid daily_croniter sample_db 100 [good; bad] sample_week
                empty_grid = Some (Raise ZoneInfoNotFoundError))
    by (vm_compute; reflexivity).
  split; [exact H|].
  exact (@build_grid_errors daily_croniter sample_db 100 [good; bad] sample_week
           ZoneInfoNotFoundError H).
Defined.

Lemma build_grid_cells_witness :
  let a := sample_job "0 9 * * *" (Some "UTC") in
  let b := sample_job "30 17 * * *" (Some "Asia/Tokyo") in
  exists g,
    @build_grid daily_croniter sample_db 100 [a; b] sample_week empty_grid
    = Some (Return g)
    /\ grid_shape g
    /\ forall d h,
        grid_cell g d h
        = flat_map (fun j => match @get_occurrences daily_croniter sample_db 100 j
                                     sample_week with
                             | Some (Return occs) => cell_entries j occs d h
                             | _ => []
                             end) [a; b].
Proof.
  intros a b.
  destruct (@build_grid daily_croniter sample_db 100 [a; b] sample_week empty_grid)
    as [[g|e]|] eqn:H.
  - exists g. split; [reflexivity|].
    exact (@build_grid_cells daily_croniter sample_db 100 [a; b] sample_week g H).
  - exfalso. vm_compute in H. discriminate H.
  - exfalso. vm_compute in H. discriminate H.
Defined.

(** ** The order of the legend *)

Lemma dict_set_keys_order (d : list (string * string)) (k v : string) :
  (dict_set d k v).*1 = if bool_decide (k ∈ d.*1) then d.*1 else d.*1 ++ [k].
Proof.
  induction d as [|[k' v'] d IH].
  - rewrite bool_decide_eq_false_2; [reflexivity|]. apply not_elem_of_nil.
  - cbn [dict_set]. destruct (String.eqb k' k) eqn:Hk; rewrite !fmap_cons; cbn [fst].
    + apply String.eqb_eq in Hk. subst k'.
      rewrite bool_decide_eq_true_2; [reflexivity|]. apply elem_of_cons. auto.
    + apply String.eqb_neq in Hk. rewrite IH.
      destruct (decide (k ∈ d.*1)) as [Hin|Hin].
      * rewrite !bool_decide_eq_true_2; [reflexivity| |exact Hin].
        apply elem_of_cons. auto.
      * rewrite !bool_decide_eq_false_2; [reflexivity| |exact Hin].
        rewrite elem_of_cons. intros [->|H]; [congruence|contradiction].
Qed.

Lemma tag_colors_fold_order (jobs : list job) :
  forall d : list (string * string),
    (fold_left (fun d j => dict_set d (tag j) (color j)) jobs d).*1
    = d.*1 ++ first_seen (map tag jobs) d.*1.
Proof.
  induction jobs as [|j rest IH]; intros d; simpl.
  - rewrite app_nil_r. reflexivity.
  - rewrite IH, dict_set_keys_order.
    destruct (bool_decide (tag j ∈ d.*1)); [reflexivity|].
    rewrite <- app_assoc. reflexivity.
Qed.


(** ** [normalize] *)

Lemma map_result_Forall2 {A B : Type} (f : A -> result B) (l : list A)
    (bs : list B) :
  map_result f l = Return bs <-> Forall2 (fun a b => f a = Return b) l bs.
Proof.
  revert bs. induction l as [|a l IH]; intros bs; simpl.
  - split; [intros [= <-]; constructor|]. intros H. inversion H. reflexivity.
  - split.
    + destruct (f a) as [b|e] eqn:Ha; [|discriminate]. simpl.
      destruct (map_result f l) as [bs'|e] eqn:Hl; [|discriminate]. simpl.
      intros [= <-]. constructor; [exact Ha|]. apply IH. reflexivity.
    + intros H. inversion H as [|a' b l' bs' Ha Hl]; subst.
      rewrite Ha. simpl. apply IH in Hl. rewrite Hl. reflexivity.
Qed.

(** What [normalize_job] returns: the six members, in the order of the
    source, with a zone that is never empty. *)
Lemma normalize_job_Return (existing : gmap py_key json) (fetched e : json) :
  normalize_job existing fetched = Return e ->
  exists nm descr cron_expr zone colour schedule k fallback,
    e = JObj [("name", nm); ("description", descr); ("cron", cron_expr);
              ("tz", zone); ("color", colour); ("tag", JStr "openclaw")]
    /\ py_get fetched "name" (JStr "unknown") = Return nm
    /\ py_get fetched "description" (JStr "") = Return descr
    /\ py_get fetched "schedule" (JObj []) = Return schedule
    /\ py_get schedule "expr" (JStr "") = Return cron_expr
    /\ py_truthy zone = true
    /\ hash_key nm = Return k
    /\ name_color nm "#58A6FF" = Return fallback
    /\ py_get (default (JObj []) (existing !! k)) "color" fallback = Return colour.
Proof.
  unfold normalize_job, bind.
  destruct (py_get fetched "name" (JStr "unknown")) as [nm|?] eqn:H1; [|discriminate].
  destruct (py_get fetched "schedule" (JObj [])) as [schedule|?] eqn:H2;
    [|discriminate].
  destruct (py_get schedule "expr" (JStr "")) as [cron_expr|?] eqn:H3;
    [|discriminate].
  destruct (py_get schedule "tz" (JStr "UTC")) as [tz0|?]; [|discriminate].
  destruct (py_get fetched "description" (JStr "")) as [descr|?] eqn:H4;
    [|discriminate].
  destruct (hash_key nm) as [k|?] eqn:H5; [|discriminate].
  destruct (name_color nm "#58A6FF") as [fallback|?] eqn:H6; [|discriminate].
  destruct (py_get (default (JObj []) (existing !! k)) "color" fallback)
    as [colour|?] eqn:H7; [|discriminate].
  intros [= <-].
  exists nm, descr, cron_expr, (if py_truthy tz0 then tz0 else JStr "UTC"), colour,
    schedule, k, fallback.
  split; [reflexivity|].
  split; [first [reflexivity|exact H1]|]. split; [first [reflexivity|exact H4]|].
  split; [first [reflexivity|exact H2]|]. split; [first [reflexivity|exact H3]|].
  split; [destruct (py_truthy tz0) eqn:Htz; [exact Htz|reflexivity]|].
  split; [first [reflexivity|exact H5]|]. split; [first [reflexivity|exact H6]|].
  exact H7.
Qed.



(** ** The colours of [normalize] *)

Lemma index_existing_lookup (items : list json) :
  forall existing existing' : gmap py_key json,
    index_existing items existing = Return existing' ->
    forall k, existing' !! k
              = match last_named items k with
                | Some j => Some j
                | None => existing !! k
                end.
Proof.
  induction items as [|j rest IH]; intros existing existing'; simpl.
  - intros [= <-] k. reflexivity.
  - unfold bind, key_of_name.
    destruct (py_getitem j "name") as [nm|?]; [|discriminate].
    destruct (hash_key nm) as [k0|?]; [|discriminate].
    intros Hrest k. rewrite (IH _ _ Hrest k).
    destruct (last_named rest k); [reflexivity|].
    destruct (decide (k0 = k)) as [->|Hne].
    + rewrite bool_decide_eq_true_2 by reflexivity. apply lookup_insert_eq.
    + rewrite bool_decide_eq_false_2 by congruence.
      apply lookup_insert_ne. exact Hne.
Qed.

Lemma normalize_entry (json_loads : string -> option json) (jobs : json)
    (store : option string) (r : json) (items : list json) (i : nat)
    (fetched : json) :
  normalize json_loads jobs store = Return r ->
  py_iter jobs = Return items ->
  items !! i = Some fetched ->
  exists existing entries e,
    load_existing json_loads store = Return existing
    /\ r = JArr (synthetic_job :: entries)
    /\ Forall2 (fun item e => normalize_job existing item = Return e) items entries
    /\ entries !! i = Some e
    /\ normalize_job existing fetched = Return e.
Proof.
  unfold normalize, bind. intros Hr Hitems Hi.
  destruct (load_existing json_loads store) as [existing|?]; [|discriminate].
  rewrite Hitems in Hr.
  destruct (map_result (normalize_job existing) items) as [entries|?] eqn:Hmap;
    [|discriminate].
  injection Hr as <-. apply map_result_Forall2 in Hmap.
  destruct (Forall2_lookup_l _ _ _ _ _ Hmap Hi) as (e & He & Hjob).
  exists existing, entries, e. auto.
Qed.

Lemma py_get_getitem (v c fallback : json) (k : string) :
  py_getitem v k = Return c -> py_get v k fallback = Return c.
Proof.
  destruct v; simpl; try discriminate.
  destruct (members_get members k); [|discriminate]. intros [= <-]. reflexivity.
Qed.

(** X11: a fetched job whose name is the name of a stored record keeps
    the colour of that record, the last one of that name in the store. *)
Theorem stored_colour_kept (json_loads : string -> option json) (text : string)
    (stored_value jobs r fetched nm stored_job c : json)
    (stored items : list json) (i : nat) (k : py_key) :
  json_loads text = Some stored_value ->
  py_iter stored_value = Return stored ->
  normalize json_loads jobs (Some text) = Return r ->
  py_iter jobs = Return items ->
  items !! i = Some fetched ->
  py_get fetched "name" (JStr "unknown") = Return nm ->
  hash_key nm = Return k ->
  last_named stored k = Some stored_job ->
  py_getitem stored_job "color" = Return c ->
  exists entries e,
    r = JArr (synthetic_job :: entries)
    /\ entries !! i = Some e
    /\ field e "name" = nm
    /\ field e "color" = c.
Proof.
  intros Hloads Hstored Hr Hitems Hi Hnm Hk Hlast Hc.
  destruct (normalize_entry _ _ _ _ _ _ _ Hr Hitems Hi)
    as (existing & entries & e & Hex & -> & _ & He & Hjob).
  exists entries, e. split; [reflexivity|]. split; [exact He|].
  apply normalize_job_Return in Hjob
    as (nm' & descr & cron_expr & zone & colour & schedule & k' & fallback
        & -> & Hnm' & _ & _ & _ & _ & Hk' & _ & Hcol).
  rewrite Hnm in Hnm'. injection Hnm' as <-.
  rewrite Hk in Hk'. injection Hk' as <-.
  split; [reflexivity|].
  unfold load_existing in Hex. rewrite Hloads in Hex. unfold bind in Hex.
  rewrite Hstored in Hex.
  rewrite (index_existing_lookup _ _ _ Hex k), Hlast in Hcol. simpl in Hcol.
  rewrite (py_get_getitem _ _ _ _ Hc) in Hcol. injection Hcol as <-.
  reflexivity.
Qed.

(** X12: without a job store, or when no stored record has the name of
    the fetched job, the colour is the one of [NAME_COLORS] for that name
    and [#58A6FF] for any other name. *)
Theorem default_colour (json_loads : string -> option json)
    (store : option string) (jobs r fetched nm : json) (items : list json)
    (i : nat) (k : py_key) :
  normalize json_loads jobs store = Return r ->
  py_iter jobs = Return items ->
  items !! i = Some fetched ->
  py_get fetched "name" (JStr "unknown") = Return nm ->
  hash_key nm = Return k ->
  (store = None
   \/ exists text stored_value stored,
        store = Some text /\ json_loads text = Some stored_value
        /\ py_iter stored_value = Return stored /\ last_named stored k = None) ->
  exists entries e,
    r = JArr (synthetic_job :: entries)
    /\ entries !! i = Some e
    /\ field e "name" = nm
    /\ name_color nm "#58A6FF" = Return (field e "color").
Proof.
  intros Hr Hitems Hi Hnm Hk Hstore.
  destruct (normalize_entry _ _ _ _ _ _ _ Hr Hitems Hi)
    as (existing & entries & e & Hex & -> & _ & He & Hjob).
  exists entries, e. split; [reflexivity|]. split; [exact He|].
  apply normalize_job_Return in Hjob
    as (nm' & descr & cron_expr & zone & colour & schedule & k' & fallback
        & -> & Hnm' & _ & _ & _ & _ & Hk' & Hfall & Hcol).
  rewrite Hnm in Hnm'. injection Hnm' as <-.
  rewrite Hk in Hk'. injection Hk' as <-.
  split; [reflexivity|].
  assert (Hnone : existing !! k = None).
  { destruct Hstore as [->|(text & sv & stored & -> & Hloads & Hstored & Hlast)].
    - injection Hex as <-. apply lookup_empty.
    - unfold load_existing in Hex. rewrite Hloads in Hex. unfold bind in Hex.
      rewrite Hstored in Hex.
      rewrite (index_existing_lookup _ _ _ Hex k), Hlast. apply lookup_empty. }
  rewrite Hnone in Hcol. simpl in Hcol. injection Hcol as <-.
  rewrite Hfall. reflexivity.
Qed.

Lemma stored_colour_kept_witness :
  exists r entries e,
    normalize sample_loads sample_fetched (Some "store") = Return r
    /\ last_named [JObj [("name", JStr "backup"); ("color", JStr "#123456")]]
         (inl "backup")
       = Some (JObj [("name", JStr "backup"); ("color", JStr "#123456")])
    /\ r = JArr (synthetic_job :: entries)
    /\ entries !! 1%nat = Some e
    /\ field e "name" = JStr "backup"
    /\ field e "color" = JStr "#123456".
Proof.
  destruct (normalize sample_loads sample_fetched (Some "store")) as [r|err] eqn:H;
    [|exfalso; vm_compute in H; discriminate H].
  destruct (stored_colour_kept sample_loads "store" sample_stored sample_fetched r
              (JObj [("name", JStr "backup");
                     ("schedule", JObj [("expr", JStr "30 2 * * *"); ("tz", JNull)])])
              (JStr "backup")
              (JObj [("name", JStr "backup"); ("color", JStr "#123456")])
              (JStr "#123456")
              [JObj [("name", JStr "backup"); ("color", JStr "#123456")]]
              [JObj [("name", JStr "daily-review"); ("description", JStr "review");
                     ("schedule", JObj [("expr", JStr "0 9 * * *");
                                        ("tz", JStr "Asia/Taipei")])];
               JObj [("name", JStr "backup");
                     ("schedule", JObj [("expr", JStr "30 2 * * *"); ("tz", JNull)])]]
              1%nat (inl "backup")
              eq_refl eq_refl H eq_refl eq_refl eq_refl eq_refl eq_refl eq_refl)
    as (entries & e & Hr & He & Hn & Hc).
  exists r, entries, e. repeat split; assumption || reflexivity.
Defined.

Lemma default_colour_witness :
  exists r entries e,
    normalize sample_loads sample_fetched None = Return r
    /\ r = JArr (synthetic_job :: entries)
    /\ entries !! 0%nat = Some e
    /\ field e "name" = JStr "daily-review"
    /\ name_color (JStr "daily-review") "#58A6FF" = Return (field e "color").
Proof.
  destruct (normalize sample_loads sample_fetched None) as [r|err] eqn:H;
    [|exfalso; vm_compute in H; discriminate H].
  destruct (default_colour sample_loads None sample_fetched r
              (JObj [("name", JStr "daily-review"); ("description", JStr "review");
                     ("schedule", JObj [("expr", JStr "0 9 * * *");
                                        ("tz", JStr "Asia/Taipei")])])
              (JStr "daily-review")
              [JObj [("name", JStr "daily-review"); ("description", JStr "review");
                     ("schedule", JObj [("expr", JStr "0 9 * * *");
                                        ("tz", JStr "Asia/Taipei")])];
               JObj [("name", JStr "backup");
                     ("schedule", JObj [("expr", JStr "30 2 * * *"); ("tz", JNull)])]]
              0%nat (inl "daily-review")
              H eq_refl eq_refl eq_refl eq_refl (or_introl eq_refl))
    as (entries & e & Hr & He & Hn & Hc).
  exists r, entries, e. repeat split; assumption.
Defined.

(** ** A second run of [normalize] *)

Lemma name_color_key (a b : json) (k : py_key) (fallback : string) :
  hash_key a = Return k -> hash_key b = Return k ->
  name_color a fallback = name_color b fallback.
Proof.
  intros Ha Hb.
  destruct a as [|ba|na|sa|la|ma], b as [|bb|nb|sb|lb|mb];
    cbn [hash_key name_color] in *; try discriminate; try reflexivity;
    congruence.
Qed.

Lemma last_named_Some (records : list json) (k : py_key) (x : json) :
  last_named records k = Some x -> x ∈ records /\ key_of_name x = Some k.
Proof.
  induction records as [|j rest IH]; simpl; [discriminate|].
  destruct (last_named rest k) as [y|].
  - intros [= <-]. destruct (IH eq_refl) as [Hin Hkey].
    split; [apply elem_of_cons; right; exact Hin|exact Hkey].
  - destruct (bool_decide_reflect (key_of_name j = Some k)) as [Hkey|_];
      [|discriminate].
    intros [= <-]. split; [apply elem_of_cons; left; reflexivity|exact Hkey].
Qed.

Lemma last_named_elem (records : list json) (k : py_key) (x : json) :
  x ∈ records -> key_of_name x = Some k -> is_Some (last_named records k).
Proof.
  induction records as [|j rest IH]; intros Hin Hkey.
  - apply elem_of_nil in Hin. contradiction.
  - simpl. destruct (last_named rest k) as [y|] eqn:Hrest; [eauto|].
    apply elem_of_cons in Hin as [->|Hin].
    + rewrite bool_decide_eq_true_2 by exact Hkey. eauto.
    + destruct (IH Hin Hkey) as [y Hy]. discriminate.
Qed.

Lemma index_existing_total (records : list json) :
  Forall (fun j => is_Some (key_of_name j)) records ->
  forall existing, exists existing', index_existing records existing = Return existing'.
Proof.
  induction 1 as [|j rest [k Hk] _ IH]; intros existing; simpl; [eauto|].
  unfold key_of_name in Hk. unfold bind.
  destruct (py_getitem j "name") as [nm|?]; [|discriminate].
  destruct (hash_key nm) as [k0|?]; [|discriminate].
  apply IH.
Qed.

(** [normalize_job] reads the stored records through the colour only. *)
Lemma normalize_job_change (existing existing' : gmap py_key json)
    (fetched e : json) :
  normalize_job existing fetched = Return e ->
  (forall nm k fallback colour,
      py_get fetched "name" (JStr "unknown") = Return nm ->
      hash_key nm = Return k ->
      name_color nm "#58A6FF" = Return fallback ->
      py_get (default (JObj []) (existing !! k)) "color" fallback = Return colour ->
      py_get (default (JObj []) (existing' !! k)) "color" fallback = Return colour) ->
  normalize_job existing' fetched = Return e.
Proof.
  unfold normalize_job, bind. intros He Hcol.
  destruct (py_get fetched "name" (JStr "unknown")) as [nm|?]; [|discriminate].
  destruct (py_get fetched "schedule" (JObj [])) as [schedule|?]; [|discriminate].
  destruct (py_get schedule "expr" (JStr "")) as [cron_expr|?]; [|discriminate].
  destruct (py_get schedule "tz" (JStr "UTC")) as [tz0|?]; [|discriminate].
  destruct (py_get fetched "description" (JStr "")) as [descr|?]; [|discriminate].
  destruct (hash_key nm) as [k|?] eqn:Hk; [|discriminate].
  destruct (name_color nm "#58A6FF") as [fallback|?] eqn:Hf; [|discriminate].
  destruct (py_get (default (JObj []) (existing !! k)) "color" fallback)
    as [colour|?] eqn:Hc; [|discriminate].
  rewrite (Hcol nm k fallback colour eq_refl Hk Hf Hc). exact He.
Qed.

(** X13: a second run with the same reply of the scheduler, on the store
    that the first run wrote, returns the same records: the colours
    chosen by the first run are the stored colours of the second. *)
Theorem normalize_idempotent (json_loads : string -> option json) (jobs r : json)
    (store : option string) (text : string) :
  normalize json_loads jobs store = Return r ->
  json_loads text = Some r ->
  normalize json_loads jobs (Some text) = Return r.
Proof.
  intros Hr Hloads.
  assert (Hr' := Hr). unfold normalize, bind in Hr'.
  destruct (load_existing json_loads store) as [existing|?]; [|discriminate].
  destruct (py_iter jobs) as [items|?] eqn:Hitems; [|discriminate].
  destruct (map_result (normalize_job existing) items) as [entries|?] eqn:Hmap;
    [|discriminate].
  injection Hr' as <-. apply map_result_Forall2 in Hmap.
  assert (Hkeys : Forall (fun j => is_Some (key_of_name j)) (synthetic_job :: entries)).
  { constructor; [eexists; reflexivity|].
    clear -Hmap. induction Hmap as [|item e items entries He _ IH]; constructor;
      [|exact IH].
    apply normalize_job_Return in He
      as (nm & descr & cron_expr & zone & colour & schedule & k & fallback
          & -> & _ & _ & _ & _ & _ & Hk & _).
    exists k. unfold key_of_name. simpl. rewrite Hk. reflexivity. }
  destruct (index_existing_total _ Hkeys ∅) as [existing' Hex'].
  unfold normalize, load_existing, bind. rewrite Hloads. simpl py_iter.
  cbv beta iota. rewrite Hex', Hitems.
  assert (Hmap' : map_result (normalize_job existing') items = Return entries).
  { apply map_result_Forall2.
    apply Forall2_same_length_lookup. split; [eapply Forall2_length; exact Hmap|].
    intros i item e Hitem He.
    pose proof (Forall2_lookup_lr _ _ _ _ _ _ Hmap Hitem He) as Hjob.
    apply (normalize_job_change existing existing' item e Hjob).
    intros nm k fallback colour Hnm Hk Hfall Hcol.
    apply normalize_job_Return in Hjob
      as (nm0 & descr & cron_expr & zone & colour0 & schedule & k0 & fallback0
          & -> & Hnm0 & _ & _ & _ & _ & Hk0 & Hfall0 & Hcol0).
    rewrite Hnm in Hnm0. injection Hnm0 as <-.
    rewrite Hk in Hk0. injection Hk0 as <-.
    rewrite Hfall in Hfall0. injection Hfall0 as <-.
    rewrite Hcol in Hcol0. injection Hcol0 as <-.
    rewrite (index_existing_lookup _ _ _ Hex' k), lookup_empty.
    assert (Hsome : is_Some (last_named entries k)).
    { eapply last_named_elem; [eapply list_elem_of_lookup_2; exact He|].
      unfold key_of_name. simpl. rewrite Hk. reflexivity. }
    destruct Hsome as [e' He'].
    cbn [last_named]. rewrite He'. cbn [default from_option id].
    apply last_named_Some in He' as [Hin Hkey'].
    apply list_elem_of_lookup_1 in Hin as [m Hm].
    destruct (Forall2_lookup_r _ _ _ _ _ Hmap Hm) as (item' & Hitem' & Hjob').
    apply normalize_job_Return in Hjob'
      as (nm1 & descr1 & cron1 & zone1 & colour1 & schedule1 & k1 & fallback1
          & -> & _ & _ & _ & _ & _ & Hk1 & Hfall1 & Hcol1).
    unfold key_of_name in Hkey'. simpl in Hkey'. rewrite Hk1 in Hkey'.
    injection Hkey' as ->.
    rewrite (name_color_key nm1 nm k "#58A6FF" Hk1 Hk), Hfall in Hfall1.
    injection Hfall1 as <-.
    rewrite Hcol in Hcol1. injection Hcol1 as <-. reflexivity. }
  rewrite Hmap'. reflexivity.
Qed.

Lemma normalize_idempotent_witness :
  exists r,
    normalize sample_loads_next sample_fetched (Some "store") = Return r
    /\ sample_loads_next "next" = Some r
    /\ normalize sample_loads_next sample_fetched (Some "next") = Return r.
Proof.
  destruct (normalize sample_loads_next sample_fetched (Some "store")) as [r|err] eqn:H;
    [|exfalso; vm_compute in H; discriminate H].
  assert (H2 : sample_loads_next "next" = Some r).
  { vm_compute in H. injection H as <-. vm_compute. reflexivity. }
  exists r. split; [reflexivity|]. split; [exact H2|].
  exact (normalize_idempotent sample_loads_next sample_fetched r (Some "store")
           "next" H H2).
Defined.

(** ** What a run of the synchroniser leaves in the job store *)

Section Store.
Variable REPO_DIR : string.
Variable json_loads : string -> option json.
Variable json_dumps : json -> string.
Variable openclaw_cron_list : result CompletedProcess.
Variable normalize_jobs : json -> option string -> result json.
Variable subprocess_run : list string -> world -> result CompletedProcess * world.
(** The generator and git leave the job store alone. *)
Hypothesis Hframe :
  forall cmd w, jobs_file (snd (subprocess_run cmd w)) = jobs_file w.

Lemma run_checked_frame (cmd : list string) (w : world) :
  jobs_file (snd (run_checked subprocess_run cmd w)) = jobs_file w.
Proof.
  unfold run_checked. pose proof (Hframe cmd w) as H.
  destruct (subprocess_run cmd w) as [[proc|e] w']; simpl in H |- *;
    [destruct (returncode proc =? 0)|]; exact H.
Qed.

Lemma publish_frame (w : world) :
  jobs_file (snd (publish REPO_DIR subprocess_run w)) = jobs_file w.
Proof.
  unfold publish.
  pose proof (run_checked_frame ["git"; "-C"; REPO_DIR; "add"; "-A"] w) as H1.
  destruct (run_checked subprocess_run _ w) as [[[]|e] w1]; simpl in H1;
    [|exact H1].
  pose proof (Hframe ["git"; "-C"; REPO_DIR; "diff"; "--cached"; "--quiet"] w1) as H2.
  destruct (subprocess_run _ w1) as [[staged|e] w2]; simpl in H2;
    [|simpl; congruence].
  destruct (negb (returncode staged =? 0)); [|simpl; congruence].
  pose proof (run_checked_frame
                ["git"; "-C"; REPO_DIR; "commit"; "-m";
                 "chore: sync openclaw cron jobs"] w2) as H3.
  destruct (run_checked subprocess_run _ w2) as [[[]|e] w3]; simpl in H3;
    [|simpl; congruence].
  pose proof (run_checked_frame ["git"; "-C"; REPO_DIR; "push"] w3) as H4.
  destruct (run_checked subprocess_run _ w3) as [[[]|e] w4]; simpl in H4;
    simpl; congruence.
Qed.

End Store.


Lemma py_len_Raise (v : json) (e : exn) : py_len v = Raise e -> e = TypeError.
Proof. destruct v; simpl; congruence. Qed.

Lemma py_get_Raise (v fallback : json) (k : string) (e : exn) :
  py_get v k fallback = Raise e -> e = AttributeError.
Proof.
  destruct v; simpl; try congruence.
  destruct (members_get members k); discriminate.
Qed.

(** X15: when the text of the job store is not JSON and the scheduler
    query has run, the synchroniser ends with status 1 and leaves the
    store as it is, whatever the scheduler replied. *)
Theorem corrupt_store_aborts (REPO_DIR : string)
    (json_loads : string -> option json) (json_dumps : json -> string)
    (subprocess_run : list string -> world -> result CompletedProcess * world)
    (proc : CompletedProcess) (w : world) (text : string) :
  jobs_file w = Some text ->
  json_loads text = None ->
  let run := sync REPO_DIR json_loads json_dumps (Return proc) subprocess_run w in
  fst run = 1 /\ jobs_file (snd run) = Some text.
Proof.
  intros Hfile Htext. unfold sync, sync_entry, main, get_openclaw_jobs.
  destruct (returncode proc =? 0); cbn [negb]; [|split; [reflexivity|exact Hfile]].
  destruct (json_loads (stdout proc)) as [data|]; [|split; [reflexivity|exact Hfile]].
  destruct (py_get data "jobs" (JArr [])) as [jobs|e] eqn:Hjobs.
  - destruct (py_len jobs) as [n|e] eqn:Hlen.
    + cbn [jobs_file print]. rewrite Hfile.
      unfold normalize, load_existing, bind. rewrite Htext.
      split; [reflexivity|exact Hfile].
    + apply py_len_Raise in Hlen as ->. split; [reflexivity|exact Hfile].
  - apply py_get_Raise in Hjobs as ->. split; [reflexivity|exact Hfile].
Qed.

Lemma corrupt_store_aborts_witness :
  let proc := mk_completed 0 "reply" "" in
  let loads := fun text : string =>
                 if String.eqb text "reply" then Some (JObj [("jobs", sample_fetched)])
                 else None in
  let run := fun (_ : list string) (w : world) =>
               (Return (mk_completed 0 "" ""), w) in
  let w := mk_world (Some "{not json") [] [] in
  jobs_file w = Some "{not json"
  /\ loads "{not json" = None
  /\ fst (sync "/srv/openclaw-calendar" loads (fun _ => "written") (Return proc) run w)
     = 1
  /\ jobs_file (snd (sync "/srv/openclaw-calendar" loads (fun _ => "written")
                       (Return proc) run w))
     = Some "{not json".
Proof.
  intros proc loads run w.
  assert (H1 : jobs_file w = Some "{not json") by reflexivity.
  assert (H2 : loads "{not json" = None) by reflexivity.
  split; [exact H1|]. split; [exact H2|].
  exact (corrupt_store_aborts "/srv/openclaw-calendar" loads (fun _ => "written")
           run proc w "{not json" H1 H2).
Defined.



Lemma index_existing_nameless (good rest : list json)
    (members : list (string * json)) :
  Forall (fun j => is_Some (key_of_name j)) good ->
  members_get members "name" = None ->
  forall existing,
    index_existing (good ++ JObj members :: rest) existing = Raise KeyError.
Proof.
  intros Hgood Hname.
  induction Hgood as [|j good [k Hk] _ IH]; intros existing; simpl.
  - rewrite Hname. reflexivity.
  - unfold key_of_name in Hk. unfold bind.
    destruct (py_getitem j "name") as [nm|?]; [|discriminate].
    destruct (hash_key nm) as [k0|?]; [|discriminate].
    apply IH.
Qed.

(** X17: a job store that holds a record without the member ["name"],
    after records that have one, stops every run: [normalize] raises
    [KeyError] whatever was fetched, the synchroniser ends with status 1
    and the store stays as it is. *)
Theorem nameless_record_blocks_sync (REPO_DIR : string)
    (json_loads : string -> option json) (json_dumps : json -> string)
    (subprocess_run : list string -> world -> result CompletedProcess * world)
    (proc : CompletedProcess) (w : world) (text : string)
    (good rest : list json) (members : list (string * json)) :
  jobs_file w = Some text ->
  json_loads text = Some (JArr (good ++ JObj members :: rest)) ->
  Forall (fun j => is_Some (key_of_name j)) good ->
  members_get members "name" = None ->
  (forall jobs, normalize json_loads jobs (Some text) = Raise KeyError)
  /\ let run := sync REPO_DIR json_loads json_dumps (Return proc) subprocess_run w in
     fst run = 1 /\ jobs_file (snd run) = Some text.
Proof.
  intros Hfile Htext Hgood Hname.
  assert (Hnorm : forall jobs, normalize json_loads jobs (Some text) = Raise KeyError).
  { intros jobs. unfold normalize, load_existing, bind. rewrite Htext.
    cbn [py_iter]. rewrite (index_existing_nameless good rest members Hgood Hname).
    reflexivity. }
  split; [exact Hnorm|].
  unfold sync, sync_entry, main, get_openclaw_jobs.
  destruct (returncode proc =? 0); cbn [negb]; [|split; [reflexivity|exact Hfile]].
  destruct (json_loads (stdout proc)) as [data|]; [|split; [reflexivity|exact Hfile]].
  destruct (py_get data "jobs" (JArr [])) as [jobs|e] eqn:Hjobs.
  - destruct (py_len jobs) as [n|e] eqn:Hlen.
    + cbn [jobs_file print]. rewrite Hfile, Hnorm.
      split; [reflexivity|exact Hfile].
    + apply py_len_Raise in Hlen as ->. split; [reflexivity|exact Hfile].
  - apply py_get_Raise in Hjobs as ->. split; [reflexivity|exact Hfile].
Qed.

Lemma nameless_record_blocks_sync_witness :
  let proc := mk_completed 0 "reply" "" in
  let good := [JObj [("name", JStr "backup"); ("color", JStr "#123456")]] in
  let members := [("color", JStr "#000000")] in
  let loads := fun text : string =>
                 if String.eqb text "reply" then Some (JObj [("jobs", sample_fetched)])
                 else Some (JArr (good ++ JObj members :: [])) in
  let run := fun (_ : list string) (w : world) =>
               (Return (mk_completed 0 "" ""), w) in
  let w := mk_world (Some "store") [] [] in
  Forall (fun j => is_Some (key_of_name j)) good
  /\ members_get members "name" = None
  /\ (forall jobs, normalize loads jobs (Some "store") = Raise KeyError)
  /\ fst (sync "/srv/openclaw-calendar" loads (fun _ => "written") (Return proc) run w)
     = 1
  /\ jobs_file (snd (sync "/srv/openclaw-calendar" loads (fun _ => "written")
                       (Return proc) run w))
     = Some "store".
Proof.
  intros proc good members loads run w.
  assert (H1 : Forall (fun j => is_Some (key_of_name j)) good)
    by (repeat constructor; eexists; reflexivity).
  assert (H2 : members_get members "name" = None) by reflexivity.
  split; [exact H1|]. split; [exact H2|].
  exact (nameless_record_blocks_sync "/srv/openclaw-calendar" loads
           (fun _ => "written") run proc w "store" good [] members
           eq_refl eq_refl H1 H2).
Defined.

(** ** The exit status *)

Lemma exit_status_Exception (e : exn) :
  is_Exception e = true -> exit_status (Raise e) = 1.
Proof. destruct e; simpl; congruence. Qed.

Lemma py_iter_Raise (v : json) (e : exn) : py_iter v = Raise e -> e = TypeError.
Proof. destruct v; simpl; congruence. Qed.

Lemma py_getitem_Raise (v : json) (k : string) (e : exn) :
  py_getitem v k = Raise e -> is_Exception e = true.
Proof.
  destruct v; simpl; try (intros [= <-]; reflexivity).
  destruct (members_get members k); [discriminate|]. intros [= <-]. reflexivity.
Qed.

Lemma hash_key_Raise (v : json) (e : exn) : hash_key v = Raise e -> e = TypeError.
Proof. destruct v; simpl; congruence. Qed.

Lemma name_color_Raise (v : json) (fallback : string) (e : exn) :
  name_color v fallback = Raise e -> e = TypeError.
Proof. destruct v; simpl; congruence. Qed.

Lemma index_existing_Raise (items : list json) (e : exn) :
  forall existing, index_existing items existing = Raise e -> is_Exception e = true.
Proof.
  induction items as [|j rest IH]; intros existing; simpl; [discriminate|].
  unfold bind.
  destruct (py_getitem j "name") as [nm|e1] eqn:H1;
    [|intros [= <-]; exact (py_getitem_Raise _ _ _ H1)].
  destruct (hash_key nm) as [k|e2] eqn:H2;
    [|intros [= <-]; apply hash_key_Raise in H2 as ->; reflexivity].
  apply IH.
Qed.

Lemma normalize_job_Raise (existing : gmap py_key json) (fetched : json) (e : exn) :
  normalize_job existing fetched = Raise e -> is_Exception e = true.
Proof.
  unfold normalize_job, bind.
  destruct (py_get fetched "name" (JStr "unknown")) as [nm|e1] eqn:H1;
    [|intros [= <-]; apply py_get_Raise in H1 as ->; reflexivity].
  destruct (py_get fetched "schedule" (JObj [])) as [schedule|e2] eqn:H2;
    [|intros [= <-]; apply py_get_Raise in H2 as ->; reflexivity].
  destruct (py_get schedule "expr" (JStr "")) as [cron_expr|e3] eqn:H3;
    [|intros [= <-]; apply py_get_Raise in H3 as ->; reflexivity].
  destruct (py_get schedule "tz" (JStr "UTC")) as [tz0|e4] eqn:H4;
    [|intros [= <-]; apply py_get_Raise in H4 as ->; reflexivity].
  destruct (py_get fetched "description" (JStr "")) as [descr|e5] eqn:H5;
    [|intros [= <-]; apply py_get_Raise in H5 as ->; reflexivity].
  destruct (hash_key nm) as [k|e6] eqn:H6;
    [|intros [= <-]; apply hash_key_Raise in H6 as ->; reflexivity].
  destruct (name_color nm "#58A6FF") as [fallback|e7] eqn:H7;
    [|intros [= <-]; apply name_color_Raise in H7 as ->; reflexivity].
  destruct (py_get (default (JObj []) (existing !! k)) "color" fallback)
    as [colour|e8] eqn:H8;
    [discriminate|intros [= <-]; apply py_get_Raise in H8 as ->; reflexivity].
Qed.

Lemma map_result_Raise {A B : Type} (f : A -> result B) (l : list A) (e : exn) :
  map_result f l = Raise e -> exists a, a ∈ l /\ f a = Raise e.
Proof.
  induction l as [|a l IH]; simpl; [discriminate|].
  destruct (f a) as [b|e1] eqn:Ha; simpl.
  - destruct (map_result f l) as [bs|e2]; simpl; [discriminate|].
    intros [= <-]. destruct (IH eq_refl) as (a' & Hin & Ha').
    exists a'. split; [apply elem_of_cons; right; exact Hin|exact Ha'].
  - intros [= <-]. exists a. split; [apply elem_of_cons; left; reflexivity|exact Ha].
Qed.

(** Whatever [normalize] raises is an [Exception]. *)
Lemma normalize_Raise (json_loads : string -> option json) (jobs : json)
    (store : option string) (e : exn) :
  normalize json_loads jobs store = Raise e -> is_Exception e = true.
Proof.
  unfold normalize, bind.
  destruct (load_existing json_loads store) as [existing|e1] eqn:Hex.
  - destruct (py_iter jobs) as [items|e2] eqn:Hitems;
      [|intros [= <-]; apply py_iter_Raise in Hitems as ->; reflexivity].
    destruct (map_result (normalize_job existing) items) as [entries|e3] eqn:Hmap;
      [discriminate|].
    intros [= <-]. apply map_result_Raise in Hmap as (item & _ & Hitem).
    exact (normalize_job_Raise _ _ _ Hitem).
  - intros [= <-]. unfold load_existing, bind in Hex.
    destruct store as [text|]; [|discriminate].
    destruct (json_loads text) as [sv|]; [|injection Hex as <-; reflexivity].
    destruct (py_iter sv) as [stored|e2] eqn:Hsv;
      [|injection Hex as <-; apply py_iter_Raise in Hsv as ->; reflexivity].
    exact (index_existing_Raise _ _ _ Hex).
Qed.

Section Status.
Variable REPO_DIR : string.
Variable json_loads : string -> option json.
Variable json_dumps : json -> string.
Variable subprocess_run : list string -> world -> result CompletedProcess * world.
Hypothesis Hframe :
  forall cmd w, jobs_file (snd (subprocess_run cmd w)) = jobs_file w.
(** What a command raises when it cannot be started is an [Exception]. *)
Hypothesis Hraise :
  forall cmd w e, fst (subprocess_run cmd w) = Raise e -> is_Exception e = true.

Lemma run_checked_status (cmd : list string) (w : world) (e : exn) :
  fst (run_checked subprocess_run cmd w) = Raise e -> is_Exception e = true.
Proof.
  unfold run_checked. pose proof (Hraise cmd w) as H.
  destruct (subprocess_run cmd w) as [[proc|e'] w']; simpl in H |- *.
  - destruct (returncode proc =? 0); simpl; [discriminate|].
    intros [= <-]. reflexivity.
  - intros [= <-]. apply H. reflexivity.
Qed.

Lemma publish_status (w : world) (e : exn) :
  fst (publish REPO_DIR subprocess_run w) = Raise e -> is_Exception e = true.
Proof.
  unfold publish.
  pose proof (run_checked_status ["git"; "-C"; REPO_DIR; "add"; "-A"] w) as H1.
  destruct (run_checked subprocess_run _ w) as [[[]|e1] w1]; simpl in H1;
    [|simpl; intros [= <-]; apply H1; reflexivity].
  pose proof (Hraise ["git"; "-C"; REPO_DIR; "diff"; "--cached"; "--quiet"] w1) as H2.
  destruct (subprocess_run _ w1) as [[staged|e2] w2]; simpl in H2;
    [|simpl; intros [= <-]; apply H2; reflexivity].
  destruct (negb (returncode staged =? 0)); [|simpl; discriminate].
  pose proof (run_checked_status
                ["git"; "-C"; REPO_DIR; "commit"; "-m";
                 "chore: sync openclaw cron jobs"] w2) as H3.
  destruct (run_checked subprocess_run _ w2) as [[[]|e3] w3]; simpl in H3;
    [|simpl; intros [= <-]; apply H3; reflexivity].
  pose proof (run_checked_status ["git"; "-C"; REPO_DIR; "push"] w3) as H4.
  destruct (run_checked subprocess_run _ w3) as [[[]|e4] w4]; simpl in H4;
    simpl; [discriminate|intros [= <-]; apply H4; reflexivity].
Qed.

(** X18: when the scheduler query has run and the synchroniser ends with
    status 0, [main] has returned and the job store holds the text of the
    records that [normalize] returned for the fetched jobs: no failure of
    a step, before or after the write, ends with status 0. *)
Theorem status_zero_store_written (proc : CompletedProcess) (w : world) :
  let run := sync REPO_DIR json_loads json_dumps (Return proc) subprocess_run w in
  fst run = 0 ->
  fst (main REPO_DIR json_loads json_dumps (Return proc) (normalize json_loads)
         subprocess_run w) = Return tt
  /\ exists data jobs normalized,
       returncode proc = 0
       /\ json_loads (stdout proc) = Some data
       /\ py_get data "jobs" (JArr []) = Return jobs
       /\ normalize json_loads jobs (jobs_file w) = Return normalized
       /\ jobs_file (snd run) = Some (json_dumps normalized).
Proof.
  unfold sync, sync_entry, main, get_openclaw_jobs.
  destruct (returncode proc =? 0) eqn:Hrc; cbn [negb]; [|simpl; discriminate].
  apply Z.eqb_eq in Hrc.
  destruct (json_loads (stdout proc)) as [data|] eqn:Hdata; [|simpl; discriminate].
  destruct (py_get data "jobs" (JArr [])) as [jobs|e] eqn:Hjobs;
    [|apply py_get_Raise in Hjobs as ->; simpl; discriminate].
  destruct (py_len jobs) as [n|e] eqn:Hlen;
    [|apply py_len_Raise in Hlen as ->; simpl; discriminate].
  cbn [jobs_file print].
  destruct (normalize json_loads jobs (jobs_file w)) as [normalized|e] eqn:Hnorm.
  - match goal with
    | |- context [run_checked subprocess_run ?cmd ?w0] =>
        pose proof (run_checked_frame subprocess_run Hframe cmd w0) as Hgen;
        pose proof (run_checked_status cmd w0) as Hgs;
        destruct (run_checked subprocess_run cmd w0) as [[[]|e] w1]
    end; simpl in Hgen, Hgs.
    + pose proof (publish_frame REPO_DIR subprocess_run Hframe w1) as Hpub.
      pose proof (publish_status w1) as Hps.
      destruct (publish REPO_DIR subprocess_run w1) as [[[]|e] w2];
        simpl in Hpub, Hps |- *.
      * intros _. split; [reflexivity|].
        exists data, jobs, normalized.
        rewrite Hpub, Hgen. auto.
      * intros Hz. exfalso.
        pose proof (exit_status_Exception e (Hps e eq_refl)) as H1.
        change (exit_status (Raise e) = 0) in Hz. congruence.
    + intros Hz. exfalso.
      pose proof (exit_status_Exception e (Hgs e eq_refl)) as H1.
      change (exit_status (Raise e) = 0) in Hz. congruence.
  - intros Hz. exfalso.
    pose proof (exit_status_Exception e (normalize_Raise _ _ _ _ Hnorm)) as H1.
    change (exit_status (Raise e) = 0) in Hz. congruence.
Qed.
End Status.

Lemma status_zero_store_written_witness :
  let proc := mk_completed 0 "reply" "" in
  let loads := fun text : string =>
                 if String.eqb text "reply" then Some (JObj [("jobs", sample_fetched)])
                 else sample_loads text in
  let run := fun (_ : list string) (w : world) =>
               (Return (mk_completed 0 "" ""), w) in
  let w := mk_world (Some "store") [] [] in
  let out := sync "/srv/openclaw-calendar" loads (fun _ => "written") (Return proc)
               run w in
  (forall cmd w0, jobs_file (snd (run cmd w0)) = jobs_file w0)
  /\ (forall cmd w0 e, fst (run cmd w0) = Raise e -> is_Exception e = true)
  /\ fst out = 0
  /\ fst (main "/srv/openclaw-calendar" loads (fun _ => "written") (Return proc)
            (normalize loads) run w) = Return tt
  /\ exists data jobs normalized,
       returncode proc = 0
       /\ loads (stdout proc) = Some data
       /\ py_get data "jobs" (JArr []) = Return jobs
       /\ normalize loads jobs (jobs_file w) = Return normalized
       /\ jobs_file (snd out) = Some ((fun _ => "written") normalized).
Proof.
  intros proc loads run w out.
  assert (H1 : forall cmd w0, jobs_file (snd (run cmd w0)) = jobs_file w0)
    by (intros cmd w0; reflexivity).
  assert (H2 : forall cmd w0 e, fst (run cmd w0) = Raise e -> is_Exception e = true)
    by (intros cmd w0 e; simpl; discriminate).
  assert (H3 : fst out = 0) by (vm_compute; reflexivity).
  split; [exact H1|]. split; [exact H2|]. split; [exact H3|].
  exact (status_zero_store_written "/srv/openclaw-calendar" loads
           (fun _ => "written") run H1 H2 proc w H3).
Defined.
